(** * dlp-client: the file-selection and content-dispatch pipeline

    A shallow embedding of the two scripts of the repository,

    - [dlp_hybrid_fs.py]: walks a directory and forwards every selected
      file to a DLP hybrid job (module [Hybrid]);
    - [dlp_fs_inspection.py]: inspects one file synchronously and prints
      the findings (module [Inspection]);

    together with the Python primitives they rely on (module [Py]) and a
    small state-and-exception monad in which the scripts are written
    (module [Eff]).  The file system and the remote service are an
    explicit [World] of oracles; every external call is recorded, in
    order, so that "is never invoked" is a statement about the record. *)

From Stdlib Require Import ZArith List String Ascii Bool Lia DecimalString.
Import ListNotations.

Local Open Scope Z_scope.
Local Open Scope list_scope.

Infix "+++" := String.append (right associativity, at level 55).

(* ================================================================== *)
(** * Python primitives *)
(* ================================================================== *)

Module Py.

(** Paths and messages are strings of characters below U+0100, one
    [ascii] for each character (its code point).  On these, [str.lower]
    maps the capitals A-Z, and U+00C0 to U+00DE but for the multiplication
    sign U+00D7, to the character 32 places further; it leaves every other
    character as it is. *)
Definition lower_char (c : ascii) : ascii :=
  let n := nat_of_ascii c in
  if andb (Nat.leb 65 n) (Nat.leb n 90) then ascii_of_nat (n + 32)
  else if andb (andb (Nat.leb 192 n) (Nat.leb n 222)) (negb (Nat.eqb n 215))
  then ascii_of_nat (n + 32)
  else c.

Fixpoint lower (s : string) : string :=
  match s with
  | EmptyString => EmptyString
  | String c s' => String (lower_char c) (lower s')
  end.

(** [s.rfind(c)] for a one-character [c]: the highest index, or -1. *)
Fixpoint rfind_from (c : ascii) (s : string) (i last : Z) : Z :=
  match s with
  | EmptyString => last
  | String a s' => rfind_from c s' (i + 1) (if Ascii.eqb a c then i else last)
  end.

Definition rfind (s : string) (c : ascii) : Z := rfind_from c s 0 (-1).

(** Slices [p[i:j]], [p[:j]] and [p[i:]] for indices that are not negative. *)
Definition slice (p : string) (i j : Z) : string :=
  substring (Z.to_nat i) (Z.to_nat (j - i)) p.
Definition slice_to (p : string) (j : Z) : string :=
  substring 0 (Z.to_nat j) p.
Definition slice_from (p : string) (i : Z) : string :=
  substring (Z.to_nat i) (String.length p - Z.to_nat i) p.

(** The [while filenameIndex < dotIndex] loop of [genericpath._splitext];
    [n] bounds the iterations left, [dotIndex - filenameIndex] of them. *)
Fixpoint splitext_loop (p : string) (dotIndex : Z) (n : nat) (filenameIndex : Z)
  : option (string * string) :=
  match n with
  | O => None
  | S n' =>
      if negb (String.eqb (slice p filenameIndex (filenameIndex + 1)) ".")
      then Some (slice_to p dotIndex, slice_from p dotIndex)
      else splitext_loop p dotIndex n' (filenameIndex + 1)
  end.

(** [os.path.splitext] (posixpath: [sep = '/'], no [altsep]). *)
Definition splitext (p : string) : string * string :=
  let sepIndex := rfind p "/" in
  let dotIndex := rfind p "." in
  if dotIndex >? sepIndex then
    let filenameIndex := sepIndex + 1 in
    match splitext_loop p dotIndex (Z.to_nat (dotIndex - filenameIndex)) filenameIndex with
    | Some r => r
    | None => (p, EmptyString)
    end
  else (p, EmptyString).

Definition startswith_sep (b : string) : bool :=
  match b with String "/" _ => true | _ => false end.

Fixpoint endswith_sep (a : string) : bool :=
  match a with
  | EmptyString => false
  | String c EmptyString => Ascii.eqb c "/"
  | String _ a' => endswith_sep a'
  end.

(** [os.path.join(a, b)] (posixpath). *)
Definition join (a b : string) : string :=
  if startswith_sep b then b
  else if String.eqb a EmptyString || endswith_sep a then a +++ b
  else a +++ "/" +++ b.

(** [x in l] for a list of strings. *)
Fixpoint str_in (x : string) (l : list string) : bool :=
  match l with
  | [] => false
  | y :: l' => String.eqb y x || str_in x l'
  end.

(** [str(n)] for an integer. *)
Definition str_int (n : Z) : string := NilZero.string_of_int (Z.to_int n).

(** ["c" * n]. *)
Fixpoint str_mul (c : string) (n : nat) : string :=
  match n with
  | O => EmptyString
  | S n' => c +++ str_mul c n'
  end.

(** ** The UTF-8 codec and text mode

    Bytes are integers in [0, 256), characters are code points. *)
Definition byte := Z.
Definition codepoint := Z.

Definition IS_CONTINUATION_BYTE (ch : Z) : bool := (128 <=? ch) && (ch <? 192).

(** [bytes.decode('utf-8', errors='ignore')].  An invalid start byte is
    dropped alone; after an invalid continuation byte the bytes before it
    are dropped and decoding resumes at that byte; a sequence cut short by
    the end of the data is dropped. *)
Fixpoint utf8_decode_ignore (s : list byte) : list codepoint :=
  match s with
  | [] => []
  | ch :: s1 =>
    if ch <? 128 then ch :: utf8_decode_ignore s1
    else if ch <? 194 then utf8_decode_ignore s1
    else if ch <? 224 then
      match s1 with
      | [] => []
      | ch2 :: s2 =>
        if negb (IS_CONTINUATION_BYTE ch2) then utf8_decode_ignore s1
        else (ch * 64 + ch2 - (192 * 64 + 128)) :: utf8_decode_ignore s2
      end
    else if ch <? 240 then
      match s1 with
      | [] => []
      | ch2 :: s2 =>
        if negb (IS_CONTINUATION_BYTE ch2)
           || (if ch2 <? 160 then ch =? 224 else ch =? 237)
        then utf8_decode_ignore s1
        else
          match s2 with
          | [] => []
          | ch3 :: s3 =>
            if negb (IS_CONTINUATION_BYTE ch3) then utf8_decode_ignore s2
            else (ch * 4096 + ch2 * 64 + ch3 - (224 * 4096 + 128 * 64 + 128))
                   :: utf8_decode_ignore s3
          end
      end
    else if ch <? 245 then
      match s1 with
      | [] => []
      | ch2 :: s2 =>
        if negb (IS_CONTINUATION_BYTE ch2)
           || (if ch2 <? 144 then ch =? 240 else ch =? 244)
        then utf8_decode_ignore s1
        else
          match s2 with
          | [] => []
          | ch3 :: s3 =>
            if negb (IS_CONTINUATION_BYTE ch3) then utf8_decode_ignore s2
            else
              match s3 with
              | [] => []
              | ch4 :: s4 =>
                if negb (IS_CONTINUATION_BYTE ch4) then utf8_decode_ignore s3
                else (ch * 262144 + ch2 * 4096 + ch3 * 64 + ch4
                        - (240 * 262144 + 128 * 4096 + 128 * 64 + 128))
                       :: utf8_decode_ignore s4
              end
          end
      end
    else utf8_decode_ignore s1
  end.

(** Universal newlines ([newline=None], the default of text mode):
    on reading, CR LF and a lone CR become LF. *)
Fixpoint translate_newlines (s : list codepoint) : list codepoint :=
  match s with
  | [] => []
  | c :: s1 =>
    if c =? 13 then
      10 :: match s1 with
            | [] => []
            | c2 :: s2 =>
              if c2 =? 10 then translate_newlines s2 else translate_newlines s1
            end
    else c :: translate_newlines s1
  end.

(** What [f.read()] returns for a file opened with
    [io.open(path, 'r', encoding='utf-8', errors='ignore')]. *)
Definition read_text (raw : list byte) : list codepoint :=
  translate_newlines (utf8_decode_ignore raw).

End Py.

(* ================================================================== *)
(** * Exceptions, the outside world and the effect monad *)
(* ================================================================== *)

Module Eff.

(** The exceptions of class [Exception] that the scripts can meet.
    [exit()] is not one of them: it ends the process (see [outcome]). *)
Inductive exn : Type :=
| FileNotFoundError (msg : string)
| OSError (msg : string)          (* any other OSError: permission, I/O, ... *)
| GoogleAPIError (msg : string)
| AttributeError (msg : string)
| Exception (msg : string).       (* any other Exception *)

(** [str(e)]. *)
Definition str_exn (e : exn) : string :=
  match e with
  | FileNotFoundError m | OSError m | GoogleAPIError m | AttributeError m
  | Exception m => m
  end.

Inductive open_mode : Type := mode_r | mode_rb.

(** The two members that the script names [BytesType.TEXT] and
    [BytesType.BYTES]. *)
Inductive BytesType : Type := TEXT | BYTES.

(** What [f.read()] gives: a [str] in text mode, [bytes] in binary mode. *)
Inductive content : Type :=
| Str (s : list Py.codepoint)
| Bytes (b : list Py.byte).

(** The request built by [send_to_hybrid_job]. *)
Record hybrid_request : Type := {
  name : string;
  hybrid_content : content;
  data_item_mode : BytesType;
  finding_file_path : string
}.

(** The request built by [inspect_file]. *)
Record inspect_request : Type := {
  parent : string;
  info_types : list string;
  min_likelihood : string;
  byte_item_type : string;
  byte_item_data : list Py.byte
}.

(** A finding of the response, with the attributes the script reads.
    [byte_range] is [None] when the range is unset; a range whose start
    and end are both 0 is as falsy as an unset one.  The entries of
    [content_locations] stand for the text Python prints for them.
    [Location] has no field [codeword_info]: reading
    [finding.location.codeword_info] raises [AttributeError], with the text
    [no_codeword_info]. *)
Inductive Likelihood : Type :=
| VERY_UNLIKELY | UNLIKELY | POSSIBLE | LIKELY | VERY_LIKELY.

Record Finding : Type := {
  info_type_name : string;
  likelihood : Likelihood;
  quote : string;
  byte_range : option (Z * Z);
  no_codeword_info : string;
  content_locations : list string
}.

(** Every call that leaves the process, as it is made. *)
Inductive call : Type :=
| CallDlpServiceClient
| CallGetsize (path : string)
| CallOpen (path : string) (mode : open_mode)
| CallHybridInspect (req : hybrid_request)
| CallInspectContent (req : inspect_request).

(** The file system, the client library and the remote service.  An
    oracle that can fail takes the number of calls made before it, so that
    the same request can fail once and succeed later.  [getsize] raises
    [OSError] only, hence its error is the message.  [HybridContentItem]
    has no attribute [BytesType]: evaluating
    [dlp.HybridContentItem.BytesType] raises [AttributeError], with the
    text [no_BytesType]. *)
Record World : Type := {
  DlpServiceClient : nat -> option exn;
  no_BytesType : string;
  isdir : string -> bool;
  walk : string -> list (string * list string * list string);
  getsize : nat -> string -> string + Z;
  read_file : nat -> string -> open_mode -> exn + list Py.byte;
  hybrid_inspect_dlp_job : nat -> hybrid_request -> exn + unit;
  inspect_content : nat -> inspect_request -> exn + list Finding
}.

(** The state of a run: the two module-level tallies of the hybrid
    script, the lines printed and the calls made. *)
Record State : Type := {
  processed_count : Z;
  skipped_count : Z;
  stdout : list string;
  calls : list call
}.

Definition initial : State :=
  {| processed_count := 0; skipped_count := 0; stdout := []; calls := [] |}.

Inductive outcome (A : Type) : Type :=
| Ret (a : A)
| Raise (e : exn)
| Exit.
Arguments Ret {A} a.
Arguments Raise {A} e.
Arguments Exit {A}.

Definition M (A : Type) : Type := State -> outcome A * State.

Definition ret {A} (a : A) : M A := fun st => (Ret a, st).

Definition bind {A B} (m : M A) (k : A -> M B) : M B :=
  fun st =>
    match m st with
    | (Ret a, st') => k a st'
    | (Raise e, st') => (Raise e, st')
    | (Exit, st') => (Exit, st')
    end.

Definition raise {A} (e : exn) : M A := fun st => (Raise e, st).

(** [exit()]. *)
Definition exit {A} : M A := fun st => (Exit, st).

(** [try: body / except ...: handler].  The handler answers [None] for an
    exception that no [except] clause matches. *)
Definition try_except {A} (body : M A) (handler : exn -> option (M A)) : M A :=
  fun st =>
    match body st with
    | (Raise e, st') =>
        match handler e with
        | Some h => h st'
        | None => (Raise e, st')
        end
    | r => r
    end.

Definition print (line : string) : M unit :=
  fun st =>
    (Ret tt, {| processed_count := processed_count st;
                skipped_count := skipped_count st;
                stdout := stdout st ++ [line];
                calls := calls st |}).

Definition record (c : call) (st : State) : State :=
  {| processed_count := processed_count st;
     skipped_count := skipped_count st;
     stdout := stdout st;
     calls := calls st ++ [c] |}.

(** An external call: it is recorded, then it returns or raises. *)
Definition external {A} (c : call) (answer : nat -> exn + A) : M A :=
  fun st =>
    match answer (List.length (calls st)) with
    | inl e => (Raise e, record c st)
    | inr a => (Ret a, record c st)
    end.

(** [for x in l: body x]. *)
Fixpoint for_each {A} (l : list A) (body : A -> M unit) : M unit :=
  match l with
  | [] => ret tt
  | x :: l' => bind (body x) (fun _ => for_each l' body)
  end.

Module Notations.
Notation "x <- m ;; k" := (bind m (fun x => k))
  (at level 61, m at next level, right associativity).
Notation "m ;; k" := (bind m (fun _ => k))
  (at level 61, right associativity).
End Notations.

End Eff.

(* ================================================================== *)
(** * dlp_hybrid_fs.py *)
(* ================================================================== *)

Module Hybrid.
Import Eff Eff.Notations.

(** The configuration block at the top of the script. *)
Record Config : Type := {
  project_id : string;
  hybrid_job_name : string;
  directory_to_scan : string;
  include_extensions : list string;
  max_file_size_bytes : Z
}.

(** The body of the loop leaves by [continue] or falls through with the
    values it has bound. *)
Inductive flow (A : Type) : Type :=
| Continue
| Next (a : A).
Arguments Continue {A}.
Arguments Next {A} a.

Section Script.
Variable cfg : Config.
Variable w : World.

(** [processed_count += 1] and [skipped_count += 1]. *)
Definition incr_processed : M unit :=
  fun st =>
    (Ret tt, {| processed_count := processed_count st + 1;
                skipped_count := skipped_count st;
                stdout := stdout st;
                calls := calls st |}).

Definition incr_skipped : M unit :=
  fun st =>
    (Ret tt, {| processed_count := processed_count st;
                skipped_count := skipped_count st + 1;
                stdout := stdout st;
                calls := calls st |}).

(** [processed_count = 0] and [skipped_count = 0]. *)
Definition reset_counts : M unit :=
  fun st =>
    (Ret tt, {| processed_count := 0;
                skipped_count := 0;
                stdout := stdout st;
                calls := calls st |}).

(** Lines 25-30: the client, or the end of the process. *)
Definition init_client : M unit :=
  try_except
    (external CallDlpServiceClient
       (fun t => match DlpServiceClient w t with
                 | Some e => inl e
                 | None => inr tt
                 end))
    (fun e => Some (
       print ("Error initializing DLP client: " +++ str_exn e) ;;
       print "Please ensure your GOOGLE_APPLICATION_CREDENTIALS environment variable is set." ;;
       exit)).

(** [dlp.HybridContentItem.BytesType.TEXT] and [....BYTES], at lines 41,
    102 and 108: the lookup of [BytesType] on [HybridContentItem] raises
    before any member is reached. *)
Definition HybridContentItem_BytesType (member : BytesType) : M BytesType :=
  raise (AttributeError (no_BytesType w)).

(** Lines 33-62. *)
Definition send_to_hybrid_job (file_path : string) (content : content) : M unit :=
  try_except
    (mode <- HybridContentItem_BytesType TEXT ;;
     let request :=
       {| name := hybrid_job_name cfg;
          hybrid_content := content;
          data_item_mode := mode;
          finding_file_path := file_path |} in
     _ <- external (CallHybridInspect request)
            (fun t => hybrid_inspect_dlp_job w t request) ;;
     print ("Successfully sent '" +++ file_path +++ "' to Hybrid Job."))
    (fun e =>
       match e with
       | GoogleAPIError _ =>
           Some (print ("Error sending '" +++ file_path
                          +++ "' to Hybrid Job: " +++ str_exn e))
       | _ =>
           Some (print ("An unexpected error occurred while processing '"
                          +++ file_path +++ "': " +++ str_exn e))
       end).

(** [os.path.getsize]. *)
Definition os_path_getsize (file_path : string) : M Z :=
  external (CallGetsize file_path)
    (fun t => match getsize w t file_path with
              | inl msg => inl (OSError msg)
              | inr n => inr n
              end).

(** [with open(file_path, mode) as f: f.read()], as raw bytes. *)
Definition open_read (file_path : string) (mode : open_mode) : M (list Py.byte) :=
  external (CallOpen file_path mode) (fun t => read_file w t file_path mode).

(** Lines 79-83: the condition of the extension filter. *)
Definition extension_excluded (file_path : string) : bool :=
  negb (match include_extensions cfg with [] => true | _ => false end)
  && negb (Py.str_in (Py.lower (snd (Py.splitext file_path)))
             (include_extensions cfg)).

(** Lines 85-95. *)
Definition check_size (file_path : string) : M (flow unit) :=
  try_except
    (file_size <- os_path_getsize file_path ;;
     if file_size >? max_file_size_bytes cfg then
       print ("Skipping '" +++ file_path +++ "': File size ("
                +++ Py.str_int file_size +++ " bytes) exceeds limit ("
                +++ Py.str_int (max_file_size_bytes cfg) +++ " bytes).") ;;
       incr_skipped ;;
       ret Continue
     else ret (Next tt))
    (fun e =>
       match e with
       | FileNotFoundError _ | OSError _ =>
           Some (print ("Error getting size for '" +++ file_path +++ "': "
                          +++ str_exn e +++ ". Skipping.") ;;
                 incr_skipped ;;
                 ret Continue)
       | _ => None
       end).

(** Lines 97-112: [content] and [data_item_mode]. *)
Definition load_content (file_path : string) : M (flow (content * BytesType)) :=
  try_except
    (raw <- open_read file_path mode_r ;;
     data_item_mode <- HybridContentItem_BytesType TEXT ;;
     ret (Next (Str (Py.read_text raw), data_item_mode)))
    (fun _ => Some (
       try_except
         (raw <- open_read file_path mode_rb ;;
          data_item_mode <- HybridContentItem_BytesType BYTES ;;
          ret (Next (Bytes raw, data_item_mode)))
         (fun e => Some (
            print ("Error reading file '" +++ file_path +++ "': "
                     +++ str_exn e +++ ". Skipping.") ;;
            incr_skipped ;;
            ret Continue)))).

(** Lines 77-116: the body of the inner loop for one [file_path]. *)
Definition process_file (file_path : string) : M unit :=
  if extension_excluded file_path then
    print ("Skipping '" +++ file_path
             +++ "': Extension not in include_extensions list.") ;;
    incr_skipped
  else
    sized <- check_size file_path ;;
    match sized with
    | Continue => ret tt
    | Next _ =>
        loaded <- load_content file_path ;;
        match loaded with
        | Continue => ret tt
        | Next (content, data_item_mode) =>
            send_to_hybrid_job file_path content ;;
            incr_processed
        end
    end.

(** The file paths of the walk, in the order of the two nested loops. *)
Definition walked_files : list string :=
  flat_map (fun '(root, _, files) => map (Py.join root) files)
           (walk w (directory_to_scan cfg)).

(** Lines 118-123. *)
Definition print_summary : M unit :=
  fun st =>
    (print (Py.str_mul "-" 30) ;;
     print "Scan Summary:" ;;
     print ("Directories scanned: "
              +++ Py.str_int (processed_count st + skipped_count st)) ;;
     print ("Files processed: " +++ Py.str_int (processed_count st)) ;;
     print ("Files skipped (size/extension/error): "
              +++ Py.str_int (skipped_count st)) ;;
     print "Scan process finished.") st.

(** Lines 75-116. *)
Definition scan : M unit :=
  for_each (walk w (directory_to_scan cfg))
    (fun '(root, _, files) =>
       for_each files (fun file => process_file (Py.join root file))).

(** The script, top to bottom. *)
Definition main : M unit :=
  init_client ;;
  print ("Starting scan of directory: " +++ directory_to_scan cfg) ;;
  (if negb (isdir w (directory_to_scan cfg)) then
     print ("Error: Directory not found or is not a directory: "
              +++ directory_to_scan cfg) ;;
     exit
   else ret tt) ;;
  reset_counts ;;
  scan ;;
  print_summary.

End Script.
End Hybrid.

(* ================================================================== *)
(** * dlp_fs_inspection.py *)
(* ================================================================== *)

Module Inspection.
Import Eff Eff.Notations.

Section Script.
Variable w : World.

(** How an f-string renders a [Likelihood] depends on the client
    library; the script only interpolates it. *)
Variable str_Likelihood : Likelihood -> string.

(** [str(l)] of a list whose items print as themselves. *)
Fixpoint str_items (l : list string) : string :=
  match l with
  | [] => EmptyString
  | [x] => x
  | x :: l' => x +++ ", " +++ str_items l'
  end.

Definition str_list (l : list string) : string := "[" +++ str_items l +++ "]".

(** [finding.location.codeword_info], at line 70: [Location] has no such
    field and the read raises. *)
Definition location_codeword_info (finding : Finding) : M (option string) :=
  raise (AttributeError (no_codeword_info finding)).

(** Lines 62-74: the body of the loop over the findings. *)
Definition print_finding (finding : Finding) : M unit :=
  print ("  InfoType: " +++ info_type_name finding) ;;
  print ("  Likelihood: " +++ str_Likelihood (likelihood finding)) ;;
  match byte_range finding with
  | Some (range_start, range_end) =>
      if (range_start =? 0) && (range_end =? 0) then ret tt
      else print ("  Byte range: " +++ Py.str_int range_start +++ "-"
                    +++ Py.str_int range_end)
  | None => ret tt
  end ;;
  codeword_info <- location_codeword_info finding ;;
  match codeword_info with
  | Some info => print ("  Codeword info: " +++ info)
  | None => ret tt
  end ;;
  match content_locations finding with
  | [] => ret tt
  | _ :: _ =>
      print ("  Content locations: " +++ str_list (content_locations finding))
  end ;;
  print (Py.str_mul "-" 20).

(** Lines 33-50: the request. *)
Definition build_request (project_id : string) (info_types : list string)
  (min_likelihood : string) (content : list Py.byte) : inspect_request :=
  {| parent := "projects/" +++ project_id +++ "/locations/global";
     Eff.info_types := info_types;
     Eff.min_likelihood := min_likelihood;
     byte_item_type := "BYTES_TYPE_UNSPECIFIED";
     byte_item_data := content |}.

(** Lines 21-29: the content, or [None] after the early [return]. *)
Definition read_content (file_path : string) : M (option (list Py.byte)) :=
  try_except
    (content <- external (CallOpen file_path mode_rb)
                  (fun t => read_file w t file_path mode_rb) ;;
     ret (Some content))
    (fun e =>
       match e with
       | FileNotFoundError _ =>
           Some (print ("Error: File not found at " +++ file_path) ;; ret None)
       | _ =>
           Some (print ("Error reading file " +++ file_path +++ ": "
                          +++ str_exn e) ;;
                 ret None)
       end).

(** Lines 55-79: the call and the report. *)
Definition call_and_report (file_path : string) (request : inspect_request)
  : M unit :=
  try_except
    (findings <- external (CallInspectContent request)
                   (fun t => inspect_content w t request) ;;
     match findings with
     | _ :: _ =>
         print ("Findings in " +++ file_path +++ ":") ;;
         for_each findings print_finding
     | [] => print ("No sensitive data findings in " +++ file_path)
     end)
    (fun e => Some (
       print ("An error occurred during DLP inspection: " +++ str_exn e))).

(** Lines 5-79. *)
Definition inspect_file (project_id file_path : string)
  (info_types : list string) (min_likelihood : string) : M unit :=
  _ <- external CallDlpServiceClient
         (fun t => match DlpServiceClient w t with
                   | Some e => inl e
                   | None => inr tt
                   end) ;;
  read <- read_content file_path ;;
  match read with
  | None => ret tt
  | Some content =>
      let request := build_request project_id info_types min_likelihood content in
      print ("Scanning file: " +++ file_path) ;;
      call_and_report file_path request
  end.

End Script.
End Inspection.

(* ================================================================== *)
(** * Vocabulary of the properties *)
(* ================================================================== *)

Module Obs.
Import Eff.

(** The calls made and the lines printed by [m] when run from [st]. *)
Definition calls_during {A} (m : M A) (st : State) : list call :=
  skipn (List.length (calls st)) (calls (snd (m st))).

Definition printed_during {A} (m : M A) (st : State) : list string :=
  skipn (List.length (stdout st)) (stdout (snd (m st))).

(** [st] after more lines, and after more calls. *)
Definition printing (lines : list string) (st : State) : State :=
  {| processed_count := processed_count st;
     skipped_count := skipped_count st;
     stdout := stdout st ++ lines;
     calls := calls st |}.

Definition calling (cs : list call) (st : State) : State :=
  {| processed_count := processed_count st;
     skipped_count := skipped_count st;
     stdout := stdout st;
     calls := calls st ++ cs |}.

(** The lines that the loop over the findings prints for one finding. *)
Definition finding_lines (str_Likelihood : Likelihood -> string) (f : Finding)
  : list string :=
  printed_during (Inspection.print_finding str_Likelihood f) initial.

Definition is_read (c : call) : bool :=
  match c with CallOpen _ _ => true | _ => false end.

Definition is_size_query (c : call) : bool :=
  match c with CallGetsize _ => true | _ => false end.

Definition is_remote (c : call) : bool :=
  match c with
  | CallHybridInspect _ | CallInspectContent _ => true
  | _ => false
  end.

(** The file that a call of the walk is about. *)
Definition call_path (c : call) : option string :=
  match c with
  | CallGetsize p | CallOpen p _ => Some p
  | CallHybridInspect req => Some (finding_file_path req)
  | _ => None
  end.

(** A call that the filters let through: it is about a file that the
    extension filter keeps and, unless it is the size query itself, about
    a file for which a size query answered a size within the limit. *)
Definition permitted (cfg : Hybrid.Config) (w : World) (c : call) : Prop :=
  exists p,
    call_path c = Some p
    /\ Hybrid.extension_excluded cfg p = false
    /\ (is_size_query c = false ->
        exists t n, getsize w t p = inr n /\ n <= Hybrid.max_file_size_bytes cfg).

(** Two extensions match when they are equal up to the case of letters. *)
Definition ci_match (a b : string) : bool :=
  String.eqb (Py.lower a) (Py.lower b).

(** From [st] to [st'], one more file in exactly one of the two tallies. *)
Definition one_tally (st st' : State) : Prop :=
  (processed_count st' = processed_count st + 1
   /\ skipped_count st' = skipped_count st)
  \/ (processed_count st' = processed_count st
      /\ skipped_count st' = skipped_count st + 1).

(** An entry of the allow-list is written in lower case. *)
Definition is_lower (a : string) : bool := String.eqb (Py.lower a) a.

(** The finding with another matched text. *)
Definition with_quote (q : string) (f : Finding) : Finding :=
  {| info_type_name := info_type_name f;
     likelihood := likelihood f;
     quote := q;
     byte_range := byte_range f;
     no_codeword_info := no_codeword_info f;
     content_locations := content_locations f |}.

End Obs.

(* ================================================================== *)
(** * Concrete runs *)
(* ================================================================== *)

Module Samples.
Import Eff.
Local Open Scope string_scope.

(** The configuration as the script ships it, on [/data]. *)
Definition cfg : Hybrid.Config :=
  {| Hybrid.project_id := "YOUR_PROJECT_ID";
     Hybrid.hybrid_job_name := "YOUR_HYBRID_JOB_NAME";
     Hybrid.directory_to_scan := "/data";
     Hybrid.include_extensions := [];
     Hybrid.max_file_size_bytes := 1024 * 1024 * 1 |}.

(** What the two missing attributes are reported as, for the runs below;
    the texts are the library's and nothing depends on them. *)
Definition no_BytesType_text : string :=
  "type object 'HybridContentItem' has no attribute 'BytesType'".

Definition no_codeword_info_text : string :=
  "Unknown field for Location: codeword_info".

Definition cfg_with (exts : list string) : Hybrid.Config :=
  {| Hybrid.project_id := "YOUR_PROJECT_ID";
     Hybrid.hybrid_job_name := "YOUR_HYBRID_JOB_NAME";
     Hybrid.directory_to_scan := "/data";
     Hybrid.include_extensions := exts;
     Hybrid.max_file_size_bytes := 1024 * 1024 * 1 |}.

(** A directory [/data] with the given files, each of [size] bytes and
    content [raw]; everything succeeds. *)
Definition calm (files : list string) (size : Z) (raw : list Py.byte) : World :=
  {| DlpServiceClient := fun _ => None;
     no_BytesType := no_BytesType_text;
     isdir := fun p => String.eqb p "/data";
     walk := fun _ => [("/data", [], files)];
     getsize := fun _ _ => inr size;
     read_file := fun _ _ _ => inr raw;
     hybrid_inspect_dlp_job := fun _ _ => inr tt;
     inspect_content := fun _ _ => inr [] |}.

(** [c.log] and [d.log], and a job that fails when it is first called
    and accepts what comes later. *)
Definition transient : World :=
  {| DlpServiceClient := fun _ => None;
     no_BytesType := no_BytesType_text;
     isdir := fun p => String.eqb p "/data";
     walk := fun _ => [("/data", [], ["c.log"; "d.log"])];
     getsize := fun _ _ => inr 2;
     read_file := fun _ _ _ => inr [104; 105];
     hybrid_inspect_dlp_job :=
       fun t _ => if Nat.leb t 3 then inl (GoogleAPIError "503 unavailable")
                  else inr tt;
     inspect_content := fun _ _ => inr [] |}.

(** One file [x.dat]; opening it in text mode fails, the binary read
    that follows gives three bytes. *)
Definition text_open_fails : World :=
  {| DlpServiceClient := fun _ => None;
     no_BytesType := no_BytesType_text;
     isdir := fun p => String.eqb p "/data";
     walk := fun _ => [("/data", [], ["x.dat"])];
     getsize := fun _ _ => inr 3;
     read_file :=
       fun _ _ mode =>
         match mode with
         | mode_r => inl (OSError "[Errno 5] Input/output error")
         | mode_rb => inr [1; 2; 3]
         end;
     hybrid_inspect_dlp_job := fun _ _ => inr tt;
     inspect_content := fun _ _ => inr [] |}.

(** No credentials and no file. *)
Definition nothing_works : World :=
  {| DlpServiceClient := fun _ => Some (Exception "DefaultCredentialsError");
     no_BytesType := no_BytesType_text;
     isdir := fun _ => false;
     walk := fun _ => [];
     getsize := fun _ _ => inl "[Errno 2] No such file or directory";
     read_file := fun _ _ _ => inl (FileNotFoundError "[Errno 2] No such file or directory");
     hybrid_inspect_dlp_job := fun _ _ => inl (GoogleAPIError "401");
     inspect_content := fun _ _ => inl (GoogleAPIError "401") |}.

(** A client, but the file is missing or the service is down. *)
Definition file_missing : World :=
  {| DlpServiceClient := fun _ => None;
     no_BytesType := no_BytesType_text;
     isdir := fun _ => false;
     walk := fun _ => [];
     getsize := fun _ _ => inl "[Errno 2] No such file or directory";
     read_file := fun _ _ _ => inl (FileNotFoundError "[Errno 2] No such file or directory");
     hybrid_inspect_dlp_job := fun _ _ => inr tt;
     inspect_content := fun _ _ => inr [] |}.


Definition email (q : string) (locations : list string) : Finding :=
  {| info_type_name := "EMAIL_ADDRESS";
     likelihood := LIKELY;
     quote := q;
     byte_range := Some (12, 28);
     no_codeword_info := no_codeword_info_text;
     content_locations := locations |}.

Definition phone : Finding :=
  {| info_type_name := "PHONE_NUMBER";
     likelihood := VERY_UNLIKELY;
     quote := "123-456-7890";
     byte_range := Some (52, 64);
     no_codeword_info := no_codeword_info_text;
     content_locations := [] |}.

(** The service answers with the given findings. *)
Definition answering (findings : list Finding) : World :=
  {| DlpServiceClient := fun _ => None;
     no_BytesType := no_BytesType_text;
     isdir := fun _ => false;
     walk := fun _ => [];
     getsize := fun _ _ => inr 2;
     read_file := fun _ _ _ => inr [104; 105];
     hybrid_inspect_dlp_job := fun _ _ => inr tt;
     inspect_content := fun _ _ => inr findings |}.

Definition show (l : Likelihood) : string :=
  match l with
  | VERY_UNLIKELY => "VERY_UNLIKELY"
  | UNLIKELY => "UNLIKELY"
  | POSSIBLE => "POSSIBLE"
  | LIKELY => "LIKELY"
  | VERY_LIKELY => "VERY_LIKELY"
  end.

End Samples.

(* ================================================================== *)
(** * More vocabulary: states, measures and shapes *)
(* ================================================================== *)

Module Run.
Import Eff Obs.

(** [st] with one more file skipped, and with one more processed. *)
Definition skipping (st : State) : State :=
  {| processed_count := processed_count st;
     skipped_count := skipped_count st + 1;
     stdout := stdout st;
     calls := calls st |}.

Definition processing (st : State) : State :=
  {| processed_count := processed_count st + 1;
     skipped_count := skipped_count st;
     stdout := stdout st;
     calls := calls st |}.

(** The number of submissions to the hybrid job among the calls. *)
Fixpoint submissions (cs : list call) : nat :=
  match cs with
  | [] => O
  | CallHybridInspect _ :: cs' => S (submissions cs')
  | _ :: cs' => submissions cs'
  end.

(** A call of the walk about [p], and to the configured job if it is a
    submission. *)
Definition about (cfg : Hybrid.Config) (p : string) (c : call) : Prop :=
  call_path c = Some p
  /\ (forall req, c = CallHybridInspect req ->
                  name req = Hybrid.hybrid_job_name cfg).

(** One file [locked.txt] that no mode can open; the two opens fail
    for different reasons. *)
Definition unreadable : World :=
  {| DlpServiceClient := fun _ => None;
     no_BytesType := Samples.no_BytesType_text;
     isdir := fun p => String.eqb p "/data";
     walk := fun _ => [("/data"%string, [], ["locked.txt"%string])];
     getsize := fun _ _ => inr 10;
     read_file :=
       fun _ _ mode =>
         match mode with
         | mode_r => inl (OSError "[Errno 5] Input/output error")
         | mode_rb => inl (OSError "[Errno 13] Permission denied")
         end;
     hybrid_inspect_dlp_job := fun _ _ => inr tt;
     inspect_content := fun _ _ => inr [] |}.

(** The finding without its matched text. *)
Definition redact (f : Finding) : Finding := with_quote EmptyString f.

(** Two answers of the service that differ at most in the matched texts. *)
Definition same_but_quotes (a b : exn + list Finding) : Prop :=
  match a, b with
  | inl e1, inl e2 => e1 = e2
  | inr f1, inr f2 => map redact f1 = map redact f2
  | _, _ => False
  end.

(** [c in s]. *)
Fixpoint has (c : ascii) (s : string) : bool :=
  match s with
  | EmptyString => false
  | String x s' => Ascii.eqb x c || has c s'
  end.

(** What [os.path.splitext] can give as an extension: nothing, or a
    period followed by characters that are neither a period nor a slash. *)
Definition extension_shaped (e : string) : bool :=
  match e with
  | EmptyString => true
  | String c rest => Ascii.eqb c "." && negb (has "." rest) && negb (has "/" rest)
  end.

End Run.

(* ================================================================== *)
(** * Properties of the hybrid script *)
(* ================================================================== *)

Import Eff Obs Run.

Arguments String.append : simpl never.
Arguments Py.str_int : simpl never.
Arguments Py.str_mul : simpl never.
Arguments Py.read_text : simpl never.

Lemma skipn_length_app {A} (l d : list A) : skipn (List.length l) (l ++ d) = d.
Proof. induction l; simpl; auto. Qed.

Lemma skipn_length_self {A} (l : list A) : skipn (List.length l) l = [].
Proof. induction l; simpl; auto. Qed.

Lemma append_assoc (a b c : string) : (a +++ b) +++ c = a +++ (b +++ c).
Proof.
  induction a as [|x a IH]; [reflexivity|].
  unfold String.append in *; fold String.append in *. now rewrite IH.
Qed.

Lemma str_in_In (x : string) (l : list string) :
  Py.str_in x l = true <-> In x l.
Proof.
  induction l as [|y l IH]; simpl.
  - split; [discriminate | tauto].
  - rewrite orb_true_iff, IH, String.eqb_eq. tauto.
Qed.

(** Unfolds the script down to the state transformers. *)
Ltac eff_unfold :=
  unfold Hybrid.process_file, Hybrid.check_size, Hybrid.load_content,
    Hybrid.send_to_hybrid_job, Hybrid.HybridContentItem_BytesType,
    Hybrid.os_path_getsize, Hybrid.open_read,
    Hybrid.incr_skipped, Hybrid.incr_processed,
    external, try_except, bind, ret, raise, print, record in *.

(** ** The four ways through the body of the loop *)

Lemma step_excluded cfg w file_path st :
  Hybrid.extension_excluded cfg file_path = true ->
  Hybrid.process_file cfg w file_path st
  = (Ret tt,
     skipping
       (printing ["Skipping '" +++ file_path
                    +++ "': Extension not in include_extensions list."] st)).
Proof. intros Hx. eff_unfold. rewrite Hx. reflexivity. Qed.

Lemma step_stat_error cfg w file_path st msg :
  Hybrid.extension_excluded cfg file_path = false ->
  getsize w (List.length (calls st)) file_path = inl msg ->
  Hybrid.process_file cfg w file_path st
  = (Ret tt,
     skipping
       (printing ["Error getting size for '" +++ file_path +++ "': " +++ msg
                    +++ ". Skipping."]
          (calling [CallGetsize file_path] st))).
Proof. intros Hx Hn. eff_unfold. rewrite Hx, Hn. reflexivity. Qed.

Lemma step_oversize cfg w file_path st n :
  Hybrid.extension_excluded cfg file_path = false ->
  getsize w (List.length (calls st)) file_path = inr n ->
  n > Hybrid.max_file_size_bytes cfg ->
  Hybrid.process_file cfg w file_path st
  = (Ret tt,
     skipping
       (printing ["Skipping '" +++ file_path +++ "': File size ("
                    +++ Py.str_int n +++ " bytes) exceeds limit ("
                    +++ Py.str_int (Hybrid.max_file_size_bytes cfg) +++ " bytes)."]
          (calling [CallGetsize file_path] st))).
Proof.
  intros Hx Hn Hgt. eff_unfold. rewrite Hx, Hn. simpl.
  destruct (Z.gtb_spec n (Hybrid.max_file_size_bytes cfg)); [reflexivity|lia].
Qed.

(** A file that reaches the loader is read twice and skipped: with the
    error of the binary read when that fails, and otherwise with the
    error of the attribute lookup that follows it. *)
Lemma step_loader cfg w file_path st n :
  Hybrid.extension_excluded cfg file_path = false ->
  getsize w (List.length (calls st)) file_path = inr n ->
  n <= Hybrid.max_file_size_bytes cfg ->
  Hybrid.process_file cfg w file_path st
  = (Ret tt,
     skipping
       (printing ["Error reading file '" +++ file_path +++ "': "
                    +++ match read_file w (S (S (List.length (calls st))))
                                file_path mode_rb with
                        | inl e => str_exn e
                        | inr _ => no_BytesType w
                        end
                    +++ ". Skipping."]
          (calling [CallGetsize file_path; CallOpen file_path mode_r;
                    CallOpen file_path mode_rb] st))).
Proof.
  intros Hx Hn Hle. eff_unfold. rewrite Hx, Hn. simpl.
  destruct (Z.gtb_spec n (Hybrid.max_file_size_bytes cfg)); [lia|]. simpl.
  rewrite !length_app; simpl. rewrite Nat.add_1_r.
  destruct (read_file w (S (List.length (calls st))) file_path mode_r)
    as [e1|raw1]; simpl;
    rewrite !length_app; simpl; rewrite !Nat.add_1_r;
    destruct (read_file w (S (S (List.length (calls st)))) file_path mode_rb)
      as [e2|raw2]; simpl;
    unfold skipping, printing, calling; simpl; rewrite <- !app_assoc; reflexivity.
Qed.

(** Every way is one of these. *)
Lemma process_file_cases cfg w file_path st :
  exists line cs,
    Hybrid.process_file cfg w file_path st
    = (Ret tt, skipping (printing [line] (calling cs st)))
    /\ (Hybrid.extension_excluded cfg file_path = true /\ cs = []
        \/ Hybrid.extension_excluded cfg file_path = false
           /\ cs = [CallGetsize file_path]
           /\ (forall n, getsize w (List.length (calls st)) file_path = inr n ->
                         n > Hybrid.max_file_size_bytes cfg)
        \/ Hybrid.extension_excluded cfg file_path = false
           /\ cs = [CallGetsize file_path; CallOpen file_path mode_r;
                    CallOpen file_path mode_rb]
           /\ (exists n, getsize w (List.length (calls st)) file_path = inr n
                         /\ n <= Hybrid.max_file_size_bytes cfg)).
Proof.
  destruct (Hybrid.extension_excluded cfg file_path) eqn:Hx.
  { eexists; exists []. split.
    - rewrite (step_excluded _ _ _ _ Hx). unfold calling. rewrite app_nil_r.
      destruct st; reflexivity.
    - auto. }
  destruct (getsize w (List.length (calls st)) file_path) as [msg|n] eqn:Hn.
  { eexists; eexists. split; [apply (step_stat_error _ _ _ _ _ Hx Hn)|].
    right; left. repeat split. intros n H. discriminate. }
  destruct (Z_gt_le_dec n (Hybrid.max_file_size_bytes cfg)) as [Hgt|Hle].
  { eexists; eexists. split; [apply (step_oversize _ _ _ _ _ Hx Hn Hgt)|].
    right; left. repeat split. intros n' H. inversion H. now subst. }
  eexists; eexists. split; [apply (step_loader _ _ _ _ _ Hx Hn Hle)|].
  right; right. repeat split. eauto.
Qed.

Lemma for_each_calls {A} (P : call -> Prop) (body : A -> M unit) :
  (forall x st, exists st' cs,
      body x st = (Ret tt, st') /\ calls st' = calls st ++ cs /\ Forall P cs) ->
  forall l st, exists st' cs,
      for_each l body st = (Ret tt, st')
      /\ calls st' = calls st ++ cs /\ Forall P cs.
Proof.
  intros Hb. induction l as [|x l IH]; intros st; simpl.
  - exists st, []. unfold ret. rewrite app_nil_r. auto.
  - destruct (Hb x st) as (st1 & cs1 & E1 & C1 & F1).
    destruct (IH st1) as (st2 & cs2 & E2 & C2 & F2).
    exists st2, (cs1 ++ cs2). unfold bind. rewrite E1. split; [exact E2|].
    split; [now rewrite C2, C1, app_assoc | now apply Forall_app].
Qed.

(** Every call of one iteration is one the filters let through. *)
Lemma process_file_calls cfg w file_path st :
  exists st' cs,
    Hybrid.process_file cfg w file_path st = (Ret tt, st')
    /\ calls st' = calls st ++ cs
    /\ Forall (permitted cfg w) cs.
Proof.
  destruct (process_file_cases cfg w file_path st)
    as (line & cs & E & [(Hx & ->)|[(Hx & -> & Hn)|(Hx & -> & n & Hn & Hle)]]);
    eexists; eexists; (split; [exact E|]); (split; [reflexivity|]).
  - constructor.
  - repeat constructor. exists file_path. repeat split; auto. discriminate.
  - assert (P : forall c, call_path c = Some file_path -> permitted cfg w c).
    { intros c Hp. exists file_path. repeat split; auto. intros _.
      exists (List.length (calls st)), n. auto. }
    repeat constructor; apply P; reflexivity.
Qed.

Lemma scan_calls cfg w st :
  exists st' cs,
    Hybrid.scan cfg w st = (Ret tt, st')
    /\ calls st' = calls st ++ cs
    /\ Forall (permitted cfg w) cs.
Proof.
  unfold Hybrid.scan. apply for_each_calls.
  intros [[root dirs] files] st0. apply for_each_calls.
  intros file st1. apply process_file_calls.
Qed.

(** C5. The filters short-circuit in order.  In one iteration of the
    loop, a file that the extension allow-list excludes causes no external
    call at all, hence no size query, and a file whose size exceeds
    [max_file_size_bytes] causes no read and no submission.  Hence, over a
    whole walk, no call is about a file that the allow-list excludes, and
    no read or submission is about a file whose size is above the limit
    whenever it is asked. *)
Theorem filters_short_circuit (cfg : Hybrid.Config) (w : World)
  (file_path : string) (st : State) :
  (Hybrid.extension_excluded cfg file_path = true ->
   calls_during (Hybrid.process_file cfg w file_path) st = [])
  /\
  (forall file_size,
     getsize w (List.length (calls st)) file_path = inr file_size ->
     file_size > Hybrid.max_file_size_bytes cfg ->
     forall c, In c (calls_during (Hybrid.process_file cfg w file_path) st) ->
               is_read c = false /\ is_remote c = false)
  /\
  (Hybrid.extension_excluded cfg file_path = true ->
   forall c, In c (calls_during (Hybrid.scan cfg w) st) ->
             call_path c <> Some file_path)
  /\
  ((forall t, exists n, getsize w t file_path = inr n
                        /\ n > Hybrid.max_file_size_bytes cfg) ->
   forall c, In c (calls_during (Hybrid.scan cfg w) st) ->
             call_path c = Some file_path ->
             is_read c = false /\ is_remote c = false).
Proof.
  split; [|split].
  - intros Hx. unfold calls_during. eff_unfold. rewrite Hx. simpl.
    apply skipn_length_self.
  - intros n Hn Hgt c. unfold calls_during. eff_unfold.
    destruct (Hybrid.extension_excluded cfg file_path); simpl.
    + rewrite skipn_length_self. intros [].
    + rewrite Hn. simpl.
      destruct (Z.gtb_spec n (Hybrid.max_file_size_bytes cfg)); [|lia].
      simpl. rewrite skipn_length_app. intros [<-|[]]. auto.
  - destruct (scan_calls cfg w st) as (st' & cs & E & C & F).
    unfold calls_during. rewrite E. cbn [snd]. rewrite C, skipn_length_app.
    rewrite Forall_forall in F. split.
    + intros Hx c Hin Hp. destruct (F c Hin) as (q & Hq & Hnx & _). congruence.
    + intros Hbig c Hin Hp. destruct (F c Hin) as (q & Hq & _ & Hsz).
      assert (q = file_path) by congruence. subst q.
      destruct (is_size_query c) eqn:Hs.
      * destruct c; try discriminate. auto.
      * destruct (Hsz eq_refl) as (t & n & Hn & Hle).
        destruct (Hbig t) as (n' & Hn' & Hgt). rewrite Hn in Hn'.
        inversion Hn'. lia.
Qed.

(** With the allow-list [.txt] and the 1 MB ceiling: [b.bin] of 5 MB is
    dropped before any size query, and an oversized [big.txt] is never
    opened, in one iteration and in the walk of a directory that holds
    both. *)
Lemma filters_short_circuit_witness :
  let cfg := Samples.cfg_with [".txt"%string] in
  let w := Samples.calm ["b.bin"; "big.txt"]%string 5242880 [] in
  calls_during (Hybrid.process_file cfg w "/data/b.bin") initial = []
  /\ (forall c, In c (calls_during (Hybrid.process_file cfg w "/data/big.txt") initial) ->
                is_read c = false /\ is_remote c = false)
  /\ (forall c, In c (calls_during (Hybrid.scan cfg w) initial) ->
                call_path c <> Some "/data/b.bin"%string)
  /\ (forall c, In c (calls_during (Hybrid.scan cfg w) initial) ->
                call_path c = Some "/data/big.txt"%string ->
                is_read c = false /\ is_remote c = false).
Proof.
  intros cfg w.
  destruct (filters_short_circuit cfg w "/data/b.bin" initial) as (A & _ & C & _).
  destruct (filters_short_circuit cfg w "/data/big.txt" initial) as (_ & B & _ & D).
  split; [|split; [|split]].
  - apply A. reflexivity.
  - apply (B 5242880); reflexivity.
  - apply C. reflexivity.
  - apply D. intros t. exists 5242880. split; reflexivity.
Defined.

Lemma process_file_tally cfg w file_path st :
  exists st', Hybrid.process_file cfg w file_path st = (Ret tt, st')
              /\ one_tally st st'.
Proof.
  destruct (process_file_cases cfg w file_path st) as (line & cs & E & _).
  eexists. split; [exact E|]. right. split; reflexivity.
Qed.

Lemma for_each_tally cfg w (files : list string) (root : string) :
  forall st, exists st',
    for_each files (fun file => Hybrid.process_file cfg w (Py.join root file)) st
      = (Ret tt, st')
    /\ processed_count st' + skipped_count st'
       = processed_count st + skipped_count st + Z.of_nat (List.length files)
    /\ processed_count st <= processed_count st'
    /\ skipped_count st <= skipped_count st'.
Proof.
  induction files as [|file files IH]; intros st; simpl.
  - exists st. unfold ret. repeat split; lia.
  - destruct (process_file_tally cfg w (Py.join root file) st) as (st1 & E1 & T1).
    destruct (IH st1) as (st2 & E2 & S2 & P2 & K2).
    exists st2. unfold bind at 1. rewrite E1. split; [exact E2|].
    unfold one_tally in T1. lia.
Qed.

Lemma scan_tally cfg w :
  forall st, exists st',
    Hybrid.scan cfg w st = (Ret tt, st')
    /\ processed_count st' + skipped_count st'
       = processed_count st + skipped_count st
         + Z.of_nat (List.length (Hybrid.walked_files cfg w))
    /\ processed_count st <= processed_count st'
    /\ skipped_count st <= skipped_count st'.
Proof.
  unfold Hybrid.scan, Hybrid.walked_files.
  induction (walk w (Hybrid.directory_to_scan cfg)) as [|[[root dirs] files] l IH];
    intros st; simpl.
  - exists st. unfold ret. repeat split; lia.
  - destruct (for_each_tally cfg w files root st) as (st1 & E1 & S1 & P1 & K1).
    destruct (IH st1) as (st2 & E2 & S2 & P2 & K2).
    exists st2. unfold bind at 1. rewrite E1. split; [exact E2|].
    rewrite length_app, length_map. lia.
Qed.

Lemma main_tally cfg w st :
  DlpServiceClient w (List.length (calls st)) = None ->
  isdir w (Hybrid.directory_to_scan cfg) = true ->
  exists st' before,
    Hybrid.main cfg w st = (Ret tt, st')
    /\ processed_count st' + skipped_count st'
       = Z.of_nat (List.length (Hybrid.walked_files cfg w))
    /\ 0 <= processed_count st' /\ 0 <= skipped_count st'
    /\ stdout st'
       = before
         ++ [Py.str_mul "-" 30;
             "Scan Summary:"%string;
             "Directories scanned: "
               +++ Py.str_int (Z.of_nat (List.length (Hybrid.walked_files cfg w)));
             "Files processed: " +++ Py.str_int (processed_count st');
             "Files skipped (size/extension/error): "
               +++ Py.str_int (skipped_count st');
             "Scan process finished."%string].
Proof.
  intros Hc Hd.
  unfold Hybrid.main, Hybrid.init_client, Hybrid.reset_counts,
    Hybrid.print_summary, bind, try_except, external, print, ret.
  rewrite Hc; simpl. rewrite Hd; simpl.
  match goal with
  | |- context [Hybrid.scan cfg w ?s] =>
      destruct (scan_tally cfg w s) as (st1 & E & S & P & K)
  end.
  rewrite E; simpl in *.
  eexists; exists (stdout st1); split; [reflexivity|]; simpl.
  repeat split; try lia.
  rewrite <- !app_assoc; simpl. rewrite S. reflexivity.
Qed.

(** C8. Every file of the walk lands in exactly one tally, exactly once:
    the body of the loop always runs to its end and adds one to
    [processed_count] or to [skipped_count], never to both; and when the
    run gets past its start-up checks, the counts of the summary add up to
    the number of files walked, so that no file, failed or not, is missing
    from them. *)
Theorem every_file_tallied_once (cfg : Hybrid.Config) (w : World) (st : State) :
  (forall file_path st0, exists st1,
      Hybrid.process_file cfg w file_path st0 = (Ret tt, st1)
      /\ one_tally st0 st1)
  /\
  (DlpServiceClient w (List.length (calls st)) = None ->
   isdir w (Hybrid.directory_to_scan cfg) = true ->
   exists st' before,
     Hybrid.main cfg w st = (Ret tt, st')
     /\ processed_count st' + skipped_count st'
        = Z.of_nat (List.length (Hybrid.walked_files cfg w))
     /\ 0 <= processed_count st' /\ 0 <= skipped_count st'
     /\ stdout st'
        = before
          ++ [Py.str_mul "-" 30;
              "Scan Summary:"%string;
              "Directories scanned: "
                +++ Py.str_int (Z.of_nat (List.length (Hybrid.walked_files cfg w)));
              "Files processed: " +++ Py.str_int (processed_count st');
              "Files skipped (size/extension/error): "
                +++ Py.str_int (skipped_count st');
              "Scan process finished."%string]).
Proof.
  split; [intros; apply process_file_tally | apply main_tally].
Qed.

(** On [c.log] and [d.log]: two files, two in the tallies. *)
Lemma every_file_tallied_once_witness :
  exists st' before,
    Hybrid.main Samples.cfg Samples.transient initial = (Ret tt, st')
    /\ processed_count st' + skipped_count st'
       = Z.of_nat (List.length (Hybrid.walked_files Samples.cfg Samples.transient))
    /\ 0 <= processed_count st' /\ 0 <= skipped_count st'
    /\ stdout st'
       = before
         ++ [Py.str_mul "-" 30;
             "Scan Summary:"%string;
             "Directories scanned: "
               +++ Py.str_int (Z.of_nat (List.length
                     (Hybrid.walked_files Samples.cfg Samples.transient)));
             "Files processed: " +++ Py.str_int (processed_count st');
             "Files skipped (size/extension/error): "
               +++ Py.str_int (skipped_count st');
             "Scan process finished."%string].
Proof.
  apply (proj2 (every_file_tallied_once Samples.cfg Samples.transient initial)).
  - reflexivity.
  - reflexivity.
Defined.

(** ** The two nested loops are one loop over [walked_files] *)

Lemma for_each_app {A} (body : A -> M unit) (l1 l2 : list A) (st : State) :
  for_each (l1 ++ l2) body st
  = bind (for_each l1 body) (fun _ => for_each l2 body) st.
Proof.
  revert st. induction l1 as [|x l1 IH]; intros st; simpl.
  - reflexivity.
  - unfold bind. destruct (body x st) as [[[]|e|] st1]; try reflexivity.
    rewrite IH. reflexivity.
Qed.

Lemma for_each_map {A B} (f : A -> B) (body : B -> M unit) (l : list A) (st : State) :
  for_each (map f l) body st = for_each l (fun x => body (f x)) st.
Proof.
  revert st. induction l as [|x l IH]; intros st; simpl.
  - reflexivity.
  - unfold bind. destruct (body (f x) st) as [[[]|e|] st1]; try reflexivity.
    apply IH.
Qed.

Lemma scan_flat cfg w st :
  Hybrid.scan cfg w st
  = for_each (Hybrid.walked_files cfg w) (Hybrid.process_file cfg w) st.
Proof.
  unfold Hybrid.scan, Hybrid.walked_files. revert st.
  induction (walk w (Hybrid.directory_to_scan cfg)) as [|[[root dirs] files] l IH];
    intros st; simpl.
  - reflexivity.
  - rewrite for_each_app. unfold bind. rewrite for_each_map.
    destruct (for_each files _ st) as [[[]|e|] st1]; try reflexivity.
    apply IH.
Qed.

Lemma submissions_app (a b : list call) :
  submissions (a ++ b) = (submissions a + submissions b)%nat.
Proof.
  induction a as [|c a IH]; simpl; [reflexivity|].
  destruct c; simpl; rewrite IH; reflexivity.
Qed.

(** ** What every iteration does, and every walk *)

(** What every iteration does, whatever the file. *)
Lemma process_file_step cfg w file_path st :
  exists st' line cs,
    Hybrid.process_file cfg w file_path st = (Ret tt, st')
    /\ stdout st' = stdout st ++ [line]
    /\ calls st' = calls st ++ cs
    /\ processed_count st' = processed_count st + Z.of_nat (submissions cs)
    /\ Forall (about cfg file_path) cs
    /\ filter is_size_query cs
       = (if Hybrid.extension_excluded cfg file_path then []
          else [CallGetsize file_path])
    /\ Forall (fun c => is_remote c = false) cs.
Proof.
  assert (A1 : about cfg file_path (CallGetsize file_path))
    by (split; [reflexivity | discriminate]).
  assert (A2 : forall m, about cfg file_path (CallOpen file_path m))
    by (split; [reflexivity | discriminate]).
  destruct (process_file_cases cfg w file_path st)
    as (line & cs & E & [(Hx & ->)|[(Hx & -> & _)|(Hx & -> & _)]]);
    eexists; exists line; eexists; (split; [exact E|]); rewrite Hx; simpl;
    (split; [reflexivity|]); (split; [reflexivity|]); simpl;
    (split; [lia|]);
    (split; [repeat (apply Forall_cons; [solve [auto]|]); apply Forall_nil|]);
    (split; [reflexivity|]);
    repeat (apply Forall_cons; [reflexivity|]); apply Forall_nil.
Qed.

(** What a loop over any list of files does. *)
Lemma files_step cfg w (files : list string) :
  forall st, exists st' lines cs,
    for_each files (Hybrid.process_file cfg w) st = (Ret tt, st')
    /\ stdout st' = stdout st ++ lines
    /\ List.length lines = List.length files
    /\ calls st' = calls st ++ cs
    /\ processed_count st' = processed_count st + Z.of_nat (submissions cs)
    /\ Forall (fun c => exists p, In p files /\ about cfg p c) cs
    /\ filter is_size_query cs
       = map CallGetsize
           (filter (fun p => negb (Hybrid.extension_excluded cfg p)) files)
    /\ Forall (fun c => is_remote c = false) cs.
Proof.
  induction files as [|file files IH]; intros st; simpl.
  - exists st, [], []. unfold ret. rewrite !app_nil_r.
    repeat split; auto; simpl; lia.
  - destruct (process_file_step cfg w file st)
      as (st1 & line & cs1 & E1 & O1 & C1 & P1 & F1 & G1 & R1).
    destruct (IH st1)
      as (st2 & lines & cs2 & E2 & O2 & L2 & C2 & P2 & F2 & G2 & R2).
    exists st2, (line :: lines), (cs1 ++ cs2). unfold bind. rewrite E1.
    split; [exact E2|].
    split; [rewrite O2, O1, <- app_assoc; reflexivity|].
    split; [simpl; now rewrite L2|].
    split; [rewrite C2, C1, <- app_assoc; reflexivity|].
    split; [rewrite P2, P1, submissions_app; lia|].
    split; [|split].
    + apply Forall_app. split.
      * eapply Forall_impl; [|exact F1]. intros c Hc. exists file.
        split; [now left|exact Hc].
      * eapply Forall_impl; [|exact F2]. intros c (p & Hp & Hc). exists p.
        split; [now right|exact Hc].
    + rewrite filter_app, G1, G2. cbn [filter].
      destruct (Hybrid.extension_excluded cfg file); reflexivity.
    + apply Forall_app. split; assumption.
Qed.


(** ** The request is never built, the payload never made *)


Lemma load_content_skips w file_path st :
  Hybrid.load_content w file_path st
  = (Ret Hybrid.Continue,
     skipping
       (printing ["Error reading file '" +++ file_path +++ "': "
                    +++ match read_file w (S (List.length (calls st)))
                                file_path mode_rb with
                        | inl e => str_exn e
                        | inr _ => no_BytesType w
                        end
                    +++ ". Skipping."]
          (calling [CallOpen file_path mode_r; CallOpen file_path mode_rb] st))).
Proof.
  eff_unfold.
  destruct (read_file w (List.length (calls st)) file_path mode_r)
    as [e1|raw1]; simpl;
    rewrite !length_app; simpl; rewrite !Nat.add_1_r;
    destruct (read_file w (S (List.length (calls st))) file_path mode_rb)
      as [e2|raw2]; simpl;
    unfold skipping, printing, calling; simpl; rewrite <- !app_assoc; reflexivity.
Qed.


(** C2. The loader never produces a payload, so no mode is recorded and
    none is submitted: the assignments of [data_item_mode] at lines 102
    and 108 fail on the lookup of [dlp.HybridContentItem.BytesType], and
    whatever was read the loader ends on [continue], the file skipped, after
    a text-mode and a binary-mode open.  On [a.txt], two readable bytes. *)
Theorem no_mode_is_ever_recorded (w : World) (file_path : string) (st : State) :
  fst (Hybrid.load_content w file_path st) = Ret Hybrid.Continue
  /\ skipped_count (snd (Hybrid.load_content w file_path st))
     = skipped_count st + 1
  /\ calls_during (Hybrid.load_content w file_path) st
     = [CallOpen file_path mode_r; CallOpen file_path mode_rb]
  /\ Hybrid.main Samples.cfg (Samples.calm ["a.txt"%string] 2 [104; 105]) initial
     = (Ret tt,
        {| processed_count := 0;
           skipped_count := 1;
           stdout :=
             ["Starting scan of directory: /data";
              "Error reading file '/data/a.txt': "
                +++ Samples.no_BytesType_text +++ ". Skipping.";
              "------------------------------";
              "Scan Summary:";
              "Directories scanned: 1";
              "Files processed: 0";
              "Files skipped (size/extension/error): 1";
              "Scan process finished."]%string;
           calls :=
             [CallDlpServiceClient;
              CallGetsize "/data/a.txt";
              CallOpen "/data/a.txt" mode_r;
              CallOpen "/data/a.txt" mode_rb] |}).
Proof.
  unfold calls_during. rewrite load_content_skips. cbn [fst snd].
  repeat split. unfold skipping, printing, calling; simpl.
  apply skipn_length_app.
Qed.

(** C3. What the text-mode read returns is thrown away.  When the file
    can be read in text mode, valid UTF-8 or not, line 102 raises right
    after the read, inside the same [try]; the handler reads the file
    again in binary mode, and when that succeeds line 108 raises in turn:
    the file is skipped with the text of that error, and neither its
    characters nor its bytes are loaded. *)
Theorem text_read_is_discarded (w : World) (file_path : string) (st : State)
  (raw bytes : list Py.byte) :
  read_file w (List.length (calls st)) file_path mode_r = inr raw ->
  read_file w (S (List.length (calls st))) file_path mode_rb = inr bytes ->
  Hybrid.load_content w file_path st
  = (Ret Hybrid.Continue,
     skipping
       (printing ["Error reading file '" +++ file_path +++ "': "
                    +++ no_BytesType w +++ ". Skipping."]
          (calling [CallOpen file_path mode_r; CallOpen file_path mode_rb] st))).
Proof.
  intros _ Hb. rewrite load_content_skips, Hb. reflexivity.
Qed.

(** A file holding the UTF-8 of "hi", and one holding the bytes [ff 61]. *)
Lemma text_read_is_discarded_witness :
  Hybrid.load_content (Samples.calm ["a.txt"%string] 2 [104; 105])
    "/data/a.txt" initial
  = (Ret Hybrid.Continue,
     skipping
       (printing ["Error reading file '" +++ "/data/a.txt" +++ "': "
                    +++ Samples.no_BytesType_text +++ ". Skipping."]
          (calling [CallOpen "/data/a.txt" mode_r; CallOpen "/data/a.txt" mode_rb]
             initial)))
  /\ Hybrid.load_content (Samples.calm ["x.bin"%string] 2 [255; 97])
       "/data/x.bin" initial
     = (Ret Hybrid.Continue,
        skipping
          (printing ["Error reading file '" +++ "/data/x.bin" +++ "': "
                       +++ Samples.no_BytesType_text +++ ". Skipping."]
             (calling [CallOpen "/data/x.bin" mode_r; CallOpen "/data/x.bin" mode_rb]
                initial))).
Proof.
  split.
  - apply (text_read_is_discarded (Samples.calm ["a.txt"%string] 2 [104; 105])
             "/data/a.txt" initial [104; 105] [104; 105]); reflexivity.
  - apply (text_read_is_discarded (Samples.calm ["x.bin"%string] 2 [255; 97])
             "/data/x.bin" initial [255; 97] [255; 97]); reflexivity.
Defined.

(** ** The extension filter *)

Lemma extension_excluded_iff cfg file_path :
  Hybrid.include_extensions cfg <> [] ->
  (Hybrid.extension_excluded cfg file_path = true <->
   ~ In (Py.lower (snd (Py.splitext file_path))) (Hybrid.include_extensions cfg)).
Proof.
  intros Hne. unfold Hybrid.extension_excluded.
  destruct (Hybrid.include_extensions cfg) as [|x l] eqn:El; [congruence|].
  cbn [negb andb]. rewrite negb_true_iff, <- not_true_iff_false, str_in_In.
  tauto.
Qed.

(** An iteration ends without a call exactly when the extension filter
    excludes the file. *)
Lemma skipped_for_extension_iff cfg w file_path st :
  Hybrid.process_file cfg w file_path st
  = (Ret tt,
     {| processed_count := processed_count st;
        skipped_count := skipped_count st + 1;
        stdout := stdout st
                  ++ ["Skipping '" +++ file_path
                        +++ "': Extension not in include_extensions list."];
        calls := calls st |})
  <-> Hybrid.extension_excluded cfg file_path = true.
Proof.
  split.
  - intros E.
    destruct (process_file_cases cfg w file_path st)
      as (line & cs & E' & [(Hx & _)|[(_ & -> & _)|(_ & -> & _)]]);
      [exact Hx | exfalso | exfalso];
      rewrite E in E'; injection E' as _ Hc;
      apply (f_equal (@List.length call)) in Hc;
      rewrite length_app in Hc; simpl in Hc; lia.
  - intros Hx. rewrite (step_excluded cfg w file_path st Hx). reflexivity.
Qed.

(** C9 as the code has it.  With a non-empty allow-list, a file is
    skipped for its extension, with the "Extension not in
    include_extensions list" line, one more in [skipped_count] and no call
    made, exactly when its extension, put in lower case, is not literally
    an entry of the list; the entries themselves are compared as written.
    When every entry is written in lower case, this is exactly when no
    entry matches the extension up to case. *)
Theorem extension_filter_lowers_the_file_only (cfg : Hybrid.Config)
  (w : World) (file_path : string) (st : State) :
  Hybrid.include_extensions cfg <> [] ->
  let skipped_for_its_extension :=
    Hybrid.process_file cfg w file_path st
    = (Ret tt,
       {| processed_count := processed_count st;
          skipped_count := skipped_count st + 1;
          stdout := stdout st
                    ++ ["Skipping '" +++ file_path
                          +++ "': Extension not in include_extensions list."];
          calls := calls st |}) in
  (skipped_for_its_extension <->
   ~ In (Py.lower (snd (Py.splitext file_path))) (Hybrid.include_extensions cfg))
  /\
  (Forall (fun entry => is_lower entry = true) (Hybrid.include_extensions cfg) ->
   (skipped_for_its_extension <->
    ~ exists entry, In entry (Hybrid.include_extensions cfg)
                    /\ ci_match (snd (Py.splitext file_path)) entry = true))
  /\
  (skipped_for_its_extension <-> Hybrid.extension_excluded cfg file_path = true).
Proof.
  intros Hne skipped_for_its_extension.
  assert (R : skipped_for_its_extension
              <-> Hybrid.extension_excluded cfg file_path = true)
    by apply skipped_for_extension_iff.
  assert (E : skipped_for_its_extension <->
              ~ In (Py.lower (snd (Py.splitext file_path)))
                   (Hybrid.include_extensions cfg)).
  { rewrite R. now apply extension_excluded_iff. }
  split; [exact E|split; [|exact R]].
  intros Hlow. rewrite E. apply not_iff_compat. split.
  - intros Hin. exists (Py.lower (snd (Py.splitext file_path))).
    split; [exact Hin|].
    rewrite Forall_forall in Hlow. specialize (Hlow _ Hin).
    unfold is_lower in Hlow. apply String.eqb_eq in Hlow.
    unfold ci_match. apply String.eqb_eq. now rewrite Hlow.
  - intros (entry & Hin & Hm).
    rewrite Forall_forall in Hlow. specialize (Hlow _ Hin).
    unfold is_lower in Hlow. apply String.eqb_eq in Hlow.
    unfold ci_match in Hm. apply String.eqb_eq in Hm.
    rewrite Hm, Hlow. exact Hin.
Qed.

(** With the allow-list [.txt]: [a.bin] is skipped for its extension,
    and [A.TXT] is not, it goes on to the size query. *)
Lemma extension_filter_lowers_the_file_only_witness :
  Hybrid.process_file (Samples.cfg_with [".txt"%string])
    (Samples.calm ["a.bin"; "A.TXT"]%string 1 []) "/data/a.bin" initial
  = (Ret tt,
     {| processed_count := 0;
        skipped_count := 0 + 1;
        stdout := [] ++ ["Skipping '" +++ "/data/a.bin"
                           +++ "': Extension not in include_extensions list."];
        calls := [] |})
  /\ Hybrid.process_file (Samples.cfg_with [".txt"%string])
       (Samples.calm ["a.bin"; "A.TXT"]%string 1 []) "/data/A.TXT" initial
     <> (Ret tt,
         {| processed_count := 0;
            skipped_count := 0 + 1;
            stdout := [] ++ ["Skipping '" +++ "/data/A.TXT"
                               +++ "': Extension not in include_extensions list."];
            calls := [] |}).
Proof.
  assert (Hne : Hybrid.include_extensions (Samples.cfg_with [".txt"%string]) <> [])
    by discriminate.
  assert (Hlow : Forall (fun entry => is_lower entry = true)
                   (Hybrid.include_extensions (Samples.cfg_with [".txt"%string])))
    by (repeat constructor).
  split.
  - destruct (extension_filter_lowers_the_file_only
                (Samples.cfg_with [".txt"%string])
                (Samples.calm ["a.bin"; "A.TXT"]%string 1 []) "/data/a.bin"
                initial Hne) as (_ & H2 & _).
    apply (proj2 (H2 Hlow)).
    intros (entry & [<-|[]] & Hm). vm_compute in Hm. discriminate.
  - destruct (extension_filter_lowers_the_file_only
                (Samples.cfg_with [".txt"%string])
                (Samples.calm ["a.bin"; "A.TXT"]%string 1 []) "/data/A.TXT"
                initial Hne) as (H1 & _ & _).
    intros E. apply (proj1 H1 E). vm_compute. left. reflexivity.
Defined.

(** C9 as stated fails.  With the allow-list [.TXT], the file [a.txt] has
    an entry that matches its extension up to case and is excluded all
    the same. *)
Lemma uppercase_entry_never_matches :
  Hybrid.include_extensions (Samples.cfg_with [".TXT"%string]) <> []
  /\ (exists entry,
        In entry (Hybrid.include_extensions (Samples.cfg_with [".TXT"%string]))
        /\ ci_match (snd (Py.splitext "/data/a.txt")) entry = true)
  /\ Hybrid.extension_excluded (Samples.cfg_with [".TXT"%string]) "/data/a.txt" = true
  /\ ~ (Hybrid.extension_excluded (Samples.cfg_with [".TXT"%string]) "/data/a.txt"
        = true
        <-> ~ exists entry,
                In entry (Hybrid.include_extensions (Samples.cfg_with [".TXT"%string]))
                /\ ci_match (snd (Py.splitext "/data/a.txt")) entry = true)
  /\ fst (Hybrid.main (Samples.cfg_with [".TXT"%string])
            (Samples.calm ["a.txt"%string] 500 [104; 105]) initial) = Ret tt
  /\ stdout (snd (Hybrid.main (Samples.cfg_with [".TXT"%string])
                    (Samples.calm ["a.txt"%string] 500 [104; 105]) initial))
     = ["Starting scan of directory: /data";
        "Skipping '/data/a.txt': Extension not in include_extensions list.";
        "------------------------------";
        "Scan Summary:";
        "Directories scanned: 1";
        "Files processed: 0";
        "Files skipped (size/extension/error): 1";
        "Scan process finished."]%string.
Proof.
  assert (M : exists entry,
             In entry (Hybrid.include_extensions (Samples.cfg_with [".TXT"%string]))
             /\ ci_match (snd (Py.splitext "/data/a.txt")) entry = true).
  { exists ".TXT"%string. split; [left; reflexivity | reflexivity]. }
  split; [discriminate|].
  split; [exact M|].
  split; [reflexivity|].
  split; [intros [H _]; apply H; [reflexivity | exact M]|].
  split; vm_compute; reflexivity.
Qed.

(* ================================================================== *)
(** * Properties of the synchronous script *)
(* ================================================================== *)

(** The loop over the findings ends in its first turn: the lines of the
    first finding up to its byte range, then the error of line 70. *)
Lemma print_finding_raises strL (f : Finding) (st : State) :
  Inspection.print_finding strL f st
  = (Raise (AttributeError (no_codeword_info f)),
     printing (finding_lines strL f) st).
Proof.
  unfold finding_lines, printed_during, printing, Inspection.print_finding,
    Inspection.location_codeword_info, bind, ret, raise, print.
  destruct f as [nm lk q [[a b]|] ci locs]; simpl;
    [destruct ((a =? 0) && (b =? 0)); simpl|];
    rewrite <- ?app_assoc, ?app_nil_r; try reflexivity;
    destruct st; reflexivity.
Qed.

Lemma finding_lines_shown strL (f : Finding) :
  finding_lines strL f
  = ("  InfoType: " +++ info_type_name f)
    :: ("  Likelihood: " +++ strL (likelihood f))
    :: match byte_range f with
       | Some (range_start, range_end) =>
           if (range_start =? 0) && (range_end =? 0) then []
           else ["  Byte range: " +++ Py.str_int range_start +++ "-"
                   +++ Py.str_int range_end]
       | None => []
       end.
Proof.
  unfold finding_lines, printed_during, Inspection.print_finding,
    Inspection.location_codeword_info, bind, ret, raise, print.
  destruct f as [nm lk q [[a b]|] ci locs]; simpl;
    [destruct ((a =? 0) && (b =? 0)); simpl|]; reflexivity.
Qed.

Lemma report_raises strL (f : Finding) (rest : list Finding) (st : State) :
  for_each (f :: rest) (Inspection.print_finding strL) st
  = (Raise (AttributeError (no_codeword_info f)),
     printing (finding_lines strL f) st).
Proof. simpl. unfold bind. now rewrite print_finding_raises. Qed.

Ltac sync_unfold :=
  unfold Inspection.inspect_file, Inspection.read_content,
    Inspection.call_and_report, external, try_except, bind, ret, print,
    record in *.

(** The four ways [inspect_file] can go. *)
Lemma inspect_file_without_client w strL project_id file_path types threshold st e :
  DlpServiceClient w (List.length (calls st)) = Some e ->
  Inspection.inspect_file w strL project_id file_path types threshold st
  = (Raise e, calling [CallDlpServiceClient] st).
Proof. intros Hc. sync_unfold. rewrite Hc. reflexivity. Qed.

Lemma inspect_file_unreadable w strL project_id file_path types threshold st e :
  DlpServiceClient w (List.length (calls st)) = None ->
  read_file w (S (List.length (calls st))) file_path mode_rb = inl e ->
  Inspection.inspect_file w strL project_id file_path types threshold st
  = (Ret tt,
     printing
       [match e with
        | FileNotFoundError _ => "Error: File not found at " +++ file_path
        | _ => "Error reading file " +++ file_path +++ ": " +++ str_exn e
        end]
       (calling [CallDlpServiceClient; CallOpen file_path mode_rb] st)).
Proof.
  intros Hc Hr. sync_unfold. rewrite Hc. simpl.
  rewrite length_app; simpl. rewrite Nat.add_1_r, Hr.
  unfold printing, calling.
  destruct e; simpl; rewrite <- ?app_assoc; reflexivity.
Qed.

Lemma inspect_file_service_error w strL project_id file_path types threshold st
  raw e :
  DlpServiceClient w (List.length (calls st)) = None ->
  read_file w (S (List.length (calls st))) file_path mode_rb = inr raw ->
  let request := Inspection.build_request project_id types threshold raw in
  inspect_content w (S (S (List.length (calls st)))) request = inl e ->
  Inspection.inspect_file w strL project_id file_path types threshold st
  = (Ret tt,
     printing
       ["Scanning file: " +++ file_path;
        "An error occurred during DLP inspection: " +++ str_exn e]
       (calling [CallDlpServiceClient; CallOpen file_path mode_rb;
                 CallInspectContent request] st)).
Proof.
  intros Hc Hr request He. sync_unfold. rewrite Hc. simpl.
  rewrite length_app; simpl. rewrite Nat.add_1_r, Hr. simpl.
  rewrite !length_app; simpl. rewrite !Nat.add_1_r. fold request. rewrite He.
  unfold printing, calling; simpl. rewrite <- !app_assoc. reflexivity.
Qed.

Lemma inspect_file_answered w strL project_id file_path types threshold st
  raw findings :
  DlpServiceClient w (List.length (calls st)) = None ->
  read_file w (S (List.length (calls st))) file_path mode_rb = inr raw ->
  let request := Inspection.build_request project_id types threshold raw in
  inspect_content w (S (S (List.length (calls st)))) request = inr findings ->
  Inspection.inspect_file w strL project_id file_path types threshold st
  = (Ret tt,
     printing
       ("Scanning file: " +++ file_path
        :: match findings with
           | [] => ["No sensitive data findings in " +++ file_path]
           | f :: _ =>
               ("Findings in " +++ file_path +++ ":")
               :: finding_lines strL f
                  ++ ["An error occurred during DLP inspection: "
                        +++ no_codeword_info f]
           end)
       (calling [CallDlpServiceClient; CallOpen file_path mode_rb;
                 CallInspectContent request] st)).
Proof.
  intros Hc Hr request He. sync_unfold. rewrite Hc. simpl.
  rewrite length_app; simpl. rewrite Nat.add_1_r, Hr. simpl.
  rewrite !length_app; simpl. rewrite !Nat.add_1_r. fold request. rewrite He.
  destruct findings as [|f findings].
  - unfold printing, calling; simpl. rewrite <- !app_assoc. reflexivity.
  - rewrite report_raises.
    unfold printing, calling; simpl. rewrite <- !app_assoc. reflexivity.
Qed.




Lemma printed_during_printing {A} (m : M A) st r lines cs :
  m st = (r, printing lines (calling cs st)) ->
  printed_during m st = lines /\ calls_during m st = cs.
Proof.
  intros E. unfold printed_during, calls_during. rewrite E. simpl.
  now rewrite !skipn_length_app.
Qed.



(** C6. The threshold reaches the service as it was given, but the
    report does not show every finding.  When the service answers with
    findings, the run prints the header, then the info type, the
    likelihood and, if it is set, the byte range of the first finding; the
    read of [finding.location.codeword_info] at line 70 then raises, the
    loop ends, and the handler of line 78 prints the text of that error.
    Nothing is printed about any finding after the first. *)
Theorem report_stops_at_the_first_finding (w : World)
  (strL : Likelihood -> string) (project_id file_path : string)
  (types : list string) (threshold : string) (st : State)
  (raw : list Py.byte) (f : Finding) (rest : list Finding) :
  DlpServiceClient w (List.length (calls st)) = None ->
  read_file w (S (List.length (calls st))) file_path mode_rb = inr raw ->
  inspect_content w (S (S (List.length (calls st))))
    (Inspection.build_request project_id types threshold raw) = inr (f :: rest) ->
  let run := Inspection.inspect_file w strL project_id file_path types threshold in
  let request := Inspection.build_request project_id types threshold raw in
  fst (run st) = Ret tt
  /\ calls_during run st
     = [CallDlpServiceClient; CallOpen file_path mode_rb; CallInspectContent request]
  /\ min_likelihood request = threshold
  /\ info_types request = types
  /\ printed_during run st
     = ["Scanning file: " +++ file_path;
        "Findings in " +++ file_path +++ ":";
        "  InfoType: " +++ info_type_name f;
        "  Likelihood: " +++ strL (likelihood f)]
       ++ match byte_range f with
          | Some (range_start, range_end) =>
              if (range_start =? 0) && (range_end =? 0) then []
              else ["  Byte range: " +++ Py.str_int range_start +++ "-"
                      +++ Py.str_int range_end]
          | None => []
          end
       ++ ["An error occurred during DLP inspection: " +++ no_codeword_info f].
Proof.
  intros Hc Hr He run request.
  pose proof (inspect_file_answered w strL project_id file_path types threshold
                st raw (f :: rest) Hc Hr He) as E.
  fold run request in E.
  destruct (printed_during_printing run st _ _ _ E) as (P & C).
  split; [now rewrite E|]. split; [exact C|].
  do 2 (split; [reflexivity|]).
  rewrite P, finding_lines_shown. reflexivity.
Qed.

(** The threshold is POSSIBLE and the service answers with an e-mail
    finding and a phone finding: the phone finding is not reported. *)
Lemma report_stops_at_the_first_finding_witness :
  let findings := [Samples.email "test@example.com" []; Samples.phone] in
  let run := Inspection.inspect_file (Samples.answering findings) Samples.show
               "p" "f.txt" ["EMAIL_ADDRESS"; "PHONE_NUMBER"]%string "POSSIBLE" in
  let request := Inspection.build_request "p"
                   ["EMAIL_ADDRESS"; "PHONE_NUMBER"]%string "POSSIBLE" [104; 105] in
  fst (run initial) = Ret tt
  /\ calls_during run initial
     = [CallDlpServiceClient; CallOpen "f.txt" mode_rb; CallInspectContent request]
  /\ min_likelihood request = "POSSIBLE"%string
  /\ info_types request = ["EMAIL_ADDRESS"; "PHONE_NUMBER"]%string
  /\ printed_during run initial
     = ["Scanning file: " +++ "f.txt";
        "Findings in " +++ "f.txt" +++ ":";
        "  InfoType: " +++ "EMAIL_ADDRESS";
        "  Likelihood: " +++ "LIKELY"]
       ++ ["  Byte range: " +++ Py.str_int 12 +++ "-" +++ Py.str_int 28]
       ++ ["An error occurred during DLP inspection: "
             +++ Samples.no_codeword_info_text].
Proof.
  apply (report_stops_at_the_first_finding
           (Samples.answering [Samples.email "test@example.com" []; Samples.phone])
           Samples.show "p" "f.txt" ["EMAIL_ADDRESS"; "PHONE_NUMBER"]%string
           "POSSIBLE" initial [104; 105]
           (Samples.email "test@example.com" []) [Samples.phone]);
    reflexivity.
Defined.

(** C7 as the code has it.  Once the client exists, [inspect_file] opens
    the file once, in binary mode.  When that fails it prints one line,
    "File not found" for a missing file and the text of the error for any
    other, returns without raising and calls the service for nothing;
    when it succeeds, the bytes submitted are all the bytes read. *)
Theorem strict_binary_read (w : World) (strL : Likelihood -> string)
  (project_id file_path : string) (types : list string) (threshold : string)
  (st : State) :
  DlpServiceClient w (List.length (calls st)) = None ->
  let run := Inspection.inspect_file w strL project_id file_path types threshold in
  (forall e,
     read_file w (S (List.length (calls st))) file_path mode_rb = inl e ->
     fst (run st) = Ret tt
     /\ printed_during run st
        = [match e with
           | FileNotFoundError _ => "Error: File not found at " +++ file_path
           | _ => "Error reading file " +++ file_path +++ ": " +++ str_exn e
           end]
     /\ calls_during run st = [CallDlpServiceClient; CallOpen file_path mode_rb]
     /\ (forall c, In c (calls_during run st) -> is_remote c = false))
  /\
  (forall raw,
     read_file w (S (List.length (calls st))) file_path mode_rb = inr raw ->
     fst (run st) = Ret tt
     /\ exists request,
          calls_during run st
          = [CallDlpServiceClient; CallOpen file_path mode_rb;
             CallInspectContent request]
          /\ byte_item_data request = raw).
Proof.
  intros Hc run. split.
  - intros e Hr.
    pose proof (inspect_file_unreadable w strL project_id file_path types
                  threshold st e Hc Hr) as E.
    fold run in E.
    destruct (printed_during_printing run st _ _ _ E) as (P & C).
    split; [now rewrite E|]. split; [exact P|]. split; [exact C|].
    rewrite C. intros c [<-|[<-|[]]]; reflexivity.
  - intros raw Hr.
    destruct (inspect_content w (S (S (List.length (calls st))))
                (Inspection.build_request project_id types threshold raw))
      as [e|findings] eqn:He.
    + pose proof (inspect_file_service_error w strL project_id file_path types
                    threshold st raw e Hc Hr He) as E.
      fold run in E.
      destruct (printed_during_printing run st _ _ _ E) as (P & C).
      split; [now rewrite E|]. eexists; split; [exact C|reflexivity].
    + pose proof (inspect_file_answered w strL project_id file_path types
                    threshold st raw findings Hc Hr He) as E.
      fold run in E.
      destruct (printed_during_printing run st _ _ _ E) as (P & C).
      split; [now rewrite E|]. eexists; split; [exact C|reflexivity].
Qed.

(** A client, and a file that is not there. *)
Lemma strict_binary_read_witness :
  let run := Inspection.inspect_file Samples.file_missing Samples.show
               "p" "gone.txt" ["EMAIL_ADDRESS"%string] "POSSIBLE" in
  fst (run initial) = Ret tt
  /\ printed_during run initial = ["Error: File not found at " +++ "gone.txt"]
  /\ calls_during run initial = [CallDlpServiceClient; CallOpen "gone.txt" mode_rb]
  /\ (forall c, In c (calls_during run initial) -> is_remote c = false).
Proof.
  apply (proj1 (strict_binary_read Samples.file_missing Samples.show
                  "p" "gone.txt" ["EMAIL_ADDRESS"%string] "POSSIBLE" initial
                  eq_refl)
           (FileNotFoundError "[Errno 2] No such file or directory")).
  reflexivity.
Defined.

(** C7 as stated fails.  The client is built before the file is opened
    and outside any [try]: without credentials, [inspect_file] on a file
    that cannot be opened raises, and prints nothing about the file. *)
Lemma unreadable_file_without_client_raises :
  (forall t, exists e, read_file Samples.nothing_works t "gone.txt" mode_rb = inl e)
  /\ Inspection.inspect_file Samples.nothing_works Samples.show
       "p" "gone.txt" ["EMAIL_ADDRESS"%string] "POSSIBLE" initial
     = (Raise (Exception "DefaultCredentialsError"),
        {| processed_count := 0;
           skipped_count := 0;
           stdout := [];
           calls := [CallDlpServiceClient] |}).
Proof.
  split.
  - intros t. eexists. reflexivity.
  - vm_compute. reflexivity.
Qed.


(* ================================================================== *)
(** * Further properties of the hybrid script *)
(* ================================================================== *)

(** X1. When the client exists but [directory_to_scan] is not a
    directory, the script prints its start line and the error line and
    exits: nothing is walked, sized, read or submitted, the tallies are
    untouched and no summary is printed. *)
Theorem bad_directory_stops_the_run (cfg : Hybrid.Config) (w : World)
  (st : State) :
  DlpServiceClient w (List.length (calls st)) = None ->
  isdir w (Hybrid.directory_to_scan cfg) = false ->
  Hybrid.main cfg w st
  = (Exit,
     printing
       ["Starting scan of directory: " +++ Hybrid.directory_to_scan cfg;
        "Error: Directory not found or is not a directory: "
          +++ Hybrid.directory_to_scan cfg]
       (calling [CallDlpServiceClient] st)).
Proof.
  intros Hc Hd.
  unfold Hybrid.main, Hybrid.init_client, bind, try_except, external, print,
    exit, ret, printing, calling.
  rewrite Hc; simpl. rewrite Hd; simpl. rewrite <- !app_assoc. reflexivity.
Qed.

(** A client, and [/data] is not a directory. *)
Lemma bad_directory_stops_the_run_witness :
  Hybrid.main Samples.cfg Samples.file_missing initial
  = (Exit,
     printing
       ["Starting scan of directory: " +++ "/data";
        "Error: Directory not found or is not a directory: " +++ "/data"]
       (calling [CallDlpServiceClient] initial)).
Proof.
  apply (bad_directory_stops_the_run Samples.cfg Samples.file_missing initial);
    reflexivity.
Defined.

(** X5. The size limit is inclusive: a kept file whose size is at most
    [max_file_size_bytes], the limit itself included, is opened in text
    mode right after the size query; a larger one is skipped with a line
    that gives both numbers, and only the size query was made. *)
Theorem size_limit_is_inclusive (cfg : Hybrid.Config) (w : World)
  (file_path : string) (st : State) (n : Z) :
  Hybrid.extension_excluded cfg file_path = false ->
  getsize w (List.length (calls st)) file_path = inr n ->
  (n <= Hybrid.max_file_size_bytes cfg ->
   exists more,
     calls_during (Hybrid.process_file cfg w file_path) st
     = CallGetsize file_path :: CallOpen file_path mode_r :: more)
  /\
  (n > Hybrid.max_file_size_bytes cfg ->
   Hybrid.process_file cfg w file_path st
   = (Ret tt,
      skipping
        (printing ["Skipping '" +++ file_path +++ "': File size ("
                     +++ Py.str_int n +++ " bytes) exceeds limit ("
                     +++ Py.str_int (Hybrid.max_file_size_bytes cfg) +++ " bytes)."]
           (calling [CallGetsize file_path] st)))).
Proof.
  intros Hx Hn. split; [|now apply step_oversize].
  intros Hle. exists [CallOpen file_path mode_rb].
  unfold calls_during. rewrite (step_loader cfg w file_path st n Hx Hn Hle).
  unfold skipping, printing, calling; simpl. apply skipn_length_app.
Qed.

(** A file of exactly 1 MB, and one of a byte more. *)
Lemma size_limit_is_inclusive_witness :
  (exists more,
     calls_during (Hybrid.process_file Samples.cfg
                     (Samples.calm ["full.txt"%string] 1048576 [104; 105])
                     "/data/full.txt") initial
     = CallGetsize "/data/full.txt" :: CallOpen "/data/full.txt" mode_r :: more)
  /\ Hybrid.process_file Samples.cfg
       (Samples.calm ["over.txt"%string] 1048577 [104; 105]) "/data/over.txt" initial
     = (Ret tt,
        skipping
          (printing ["Skipping '" +++ "/data/over.txt" +++ "': File size ("
                       +++ Py.str_int 1048577 +++ " bytes) exceeds limit ("
                       +++ Py.str_int (Hybrid.max_file_size_bytes Samples.cfg)
                       +++ " bytes)."]
             (calling [CallGetsize "/data/over.txt"] initial))).
Proof.
  split.
  - apply (proj1 (size_limit_is_inclusive Samples.cfg
                    (Samples.calm ["full.txt"%string] 1048576 [104; 105])
                    "/data/full.txt" initial 1048576 eq_refl eq_refl)).
    vm_compute. discriminate.
  - apply (proj2 (size_limit_is_inclusive Samples.cfg
                    (Samples.calm ["over.txt"%string] 1048577 [104; 105])
                    "/data/over.txt" initial 1048577 eq_refl eq_refl)).
    reflexivity.
Defined.

(** X6. Every file of the walk prints exactly one line, whatever
    happens to it, so a walk prints as many lines as it has files. *)
Theorem one_line_per_file (cfg : Hybrid.Config) (w : World) (st : State) :
  (forall file_path,
     List.length (printed_during (Hybrid.process_file cfg w file_path) st) = 1%nat)
  /\ fst (Hybrid.scan cfg w st) = Ret tt
  /\ List.length (printed_during (Hybrid.scan cfg w) st)
     = List.length (Hybrid.walked_files cfg w).
Proof.
  split.
  - intros file_path.
    destruct (process_file_step cfg w file_path st) as (st1 & line & cs & E & O & _).
    unfold printed_during. rewrite E. cbn [snd]. now rewrite O, skipn_length_app.
  - destruct (files_step cfg w (Hybrid.walked_files cfg w) st)
      as (st1 & lines & cs & E & O & L & _).
    unfold printed_during. rewrite scan_flat, E. cbn [fst snd].
    split; [reflexivity|]. now rewrite O, skipn_length_app.
Qed.


(** X9. The size queries of a walk are exactly the files that the
    extension filter keeps, each once, in the order of the walk. *)
Theorem kept_files_are_sized_once_in_order (cfg : Hybrid.Config) (w : World)
  (st : State) :
  filter is_size_query (calls_during (Hybrid.scan cfg w) st)
  = map CallGetsize
      (filter (fun p => negb (Hybrid.extension_excluded cfg p))
              (Hybrid.walked_files cfg w)).
Proof.
  destruct (files_step cfg w (Hybrid.walked_files cfg w) st)
    as (st1 & lines & cs & E & _ & _ & C & _ & _ & G & _).
  unfold calls_during. rewrite scan_flat, E. cbn [snd].
  now rewrite C, skipn_length_app.
Qed.



(** X2. A file that passes the extension filter and whose size cannot
    be obtained is skipped: the [OSError] is caught, one line carries its
    text, [skipped_count] grows by one, and the file is neither read nor
    submitted. *)
Theorem stat_error_skips_the_file (cfg : Hybrid.Config) (w : World)
  (file_path : string) (st : State) (msg : string) :
  Hybrid.extension_excluded cfg file_path = false ->
  getsize w (List.length (calls st)) file_path = inl msg ->
  Hybrid.process_file cfg w file_path st
  = (Ret tt,
     skipping
       (printing ["Error getting size for '" +++ file_path +++ "': " +++ msg
                    +++ ". Skipping."]
          (calling [CallGetsize file_path] st))).
Proof. intros Hx Hn. eff_unfold. rewrite Hx, Hn. reflexivity. Qed.

(** The size query of [gone.txt] fails. *)
Lemma stat_error_skips_the_file_witness :
  Hybrid.process_file Samples.cfg Samples.file_missing "/data/gone.txt" initial
  = (Ret tt,
     skipping
       (printing ["Error getting size for '" +++ "/data/gone.txt" +++ "': "
                    +++ "[Errno 2] No such file or directory" +++ ". Skipping."]
          (calling [CallGetsize "/data/gone.txt"] initial))).
Proof.
  apply (stat_error_skips_the_file Samples.cfg Samples.file_missing
           "/data/gone.txt" initial "[Errno 2] No such file or directory");
    reflexivity.
Defined.

(** X3. When the text-mode open fails and the binary read fails too,
    the file is skipped with the text of the second error; the first error
    is printed nowhere.  The file was opened twice, text mode first, and
    nothing is submitted. *)
Theorem unreadable_file_reports_the_last_error (cfg : Hybrid.Config) (w : World)
  (file_path : string) (st : State) (n : Z) (e1 e2 : exn) :
  Hybrid.extension_excluded cfg file_path = false ->
  getsize w (List.length (calls st)) file_path = inr n ->
  n <= Hybrid.max_file_size_bytes cfg ->
  read_file w (S (List.length (calls st))) file_path mode_r = inl e1 ->
  read_file w (S (S (List.length (calls st)))) file_path mode_rb = inl e2 ->
  Hybrid.process_file cfg w file_path st
  = (Ret tt,
     skipping
       (printing ["Error reading file '" +++ file_path +++ "': " +++ str_exn e2
                    +++ ". Skipping."]
          (calling [CallGetsize file_path; CallOpen file_path mode_r;
                    CallOpen file_path mode_rb] st))).
Proof.
  intros Hx Hn Hle _ H2.
  rewrite (step_loader cfg w file_path st n Hx Hn Hle), H2. reflexivity.
Qed.

(** [locked.txt]: an I/O error in text mode, then a permission error. *)
Lemma unreadable_file_reports_the_last_error_witness :
  Hybrid.process_file Samples.cfg unreadable "/data/locked.txt" initial
  = (Ret tt,
     skipping
       (printing ["Error reading file '" +++ "/data/locked.txt" +++ "': "
                    +++ "[Errno 13] Permission denied" +++ ". Skipping."]
          (calling [CallGetsize "/data/locked.txt"; CallOpen "/data/locked.txt" mode_r;
                    CallOpen "/data/locked.txt" mode_rb] initial))).
Proof.
  apply (unreadable_file_reports_the_last_error Samples.cfg unreadable
           "/data/locked.txt" initial 10
           (OSError "[Errno 5] Input/output error")
           (OSError "[Errno 13] Permission denied"));
    try reflexivity.
  vm_compute. discriminate.
Defined.

(** X4. No file gets past the loader.  A file that passes the extension
    filter and the size check is opened in text mode and then in binary
    mode, whatever the first read gave, and is skipped: when the binary
    read fails the line carries its error, and when it succeeds the line
    carries the text of the [AttributeError] of line 108.  Nothing is
    submitted and [processed_count] stays as it was. *)
Theorem kept_file_is_read_twice_and_skipped (cfg : Hybrid.Config) (w : World)
  (file_path : string) (st : State) (n : Z) :
  Hybrid.extension_excluded cfg file_path = false ->
  getsize w (List.length (calls st)) file_path = inr n ->
  n <= Hybrid.max_file_size_bytes cfg ->
  Hybrid.process_file cfg w file_path st
  = (Ret tt,
     skipping
       (printing
          ["Error reading file '" +++ file_path +++ "': "
             +++ match read_file w (S (S (List.length (calls st)))) file_path mode_rb with
                 | inl e => str_exn e
                 | inr _ => no_BytesType w
                 end
             +++ ". Skipping."]
          (calling [CallGetsize file_path; CallOpen file_path mode_r;
                    CallOpen file_path mode_rb] st)))
  /\ processed_count (snd (Hybrid.process_file cfg w file_path st))
     = processed_count st
  /\ skipped_count (snd (Hybrid.process_file cfg w file_path st))
     = skipped_count st + 1.
Proof.
  intros Hx Hn Hle.
  rewrite (step_loader cfg w file_path st n Hx Hn Hle).
  repeat split.
Qed.

(** [a.txt], 500 bytes, readable both ways. *)
Lemma kept_file_is_read_twice_and_skipped_witness :
  let w := Samples.calm ["a.txt"%string] 500 [104; 105] in
  Hybrid.process_file Samples.cfg w "/data/a.txt" initial
  = (Ret tt,
     skipping
       (printing
          ["Error reading file '" +++ "/data/a.txt" +++ "': "
             +++ Samples.no_BytesType_text +++ ". Skipping."]
          (calling [CallGetsize "/data/a.txt"; CallOpen "/data/a.txt" mode_r;
                    CallOpen "/data/a.txt" mode_rb] initial)))
  /\ processed_count (snd (Hybrid.process_file Samples.cfg w "/data/a.txt" initial))
     = processed_count initial
  /\ skipped_count (snd (Hybrid.process_file Samples.cfg w "/data/a.txt" initial))
     = skipped_count initial + 1.
Proof.
  apply (kept_file_is_read_twice_and_skipped Samples.cfg
           (Samples.calm ["a.txt"%string] 500 [104; 105]) "/data/a.txt" initial 500);
    try reflexivity.
  vm_compute. discriminate.
Defined.

(* ================================================================== *)
(** * Further properties of the synchronous script *)
(* ================================================================== *)

(** X10. What [inspect_file] calls follows from what its calls give.
    When the client cannot be made, the error of the constructor leaves
    [inspect_file] and the constructor is the only call.  Otherwise
    [inspect_file] returns normally, and after the client it opens the
    file once, in binary mode; when that fails it calls nothing more; when
    it gives bytes there is one [inspect_content], whose request holds
    those bytes, and no call after it, whether the service answers or
    fails. *)
Theorem inspect_file_call_shape (w : World) (strL : Likelihood -> string)
  (project_id file_path : string) (types : list string) (threshold : string)
  (st : State) :
  let run := Inspection.inspect_file w strL project_id file_path types threshold in
  match DlpServiceClient w (List.length (calls st)) with
  | Some e => run st = (Raise e, calling [CallDlpServiceClient] st)
  | None =>
      fst (run st) = Ret tt
      /\ calls_during run st
         = match read_file w (S (List.length (calls st))) file_path mode_rb with
           | inl _ => [CallDlpServiceClient; CallOpen file_path mode_rb]
           | inr raw =>
               [CallDlpServiceClient; CallOpen file_path mode_rb;
                CallInspectContent
                  (Inspection.build_request project_id types threshold raw)]
           end
  end.
Proof.
  cbv zeta.
  destruct (DlpServiceClient w (List.length (calls st))) as [e|] eqn:Hc.
  { now apply inspect_file_without_client. }
  destruct (read_file w (S (List.length (calls st))) file_path mode_rb)
    as [e|raw] eqn:Hr.
  { pose proof (inspect_file_unreadable w strL project_id file_path types
                  threshold st e Hc Hr) as E.
    split; [now rewrite E|].
    apply (printed_during_printing _ _ _ _ _ E). }
  destruct (inspect_content w (S (S (List.length (calls st))))
              (Inspection.build_request project_id types threshold raw))
    as [e|findings] eqn:He.
  - pose proof (inspect_file_service_error w strL project_id file_path types
                  threshold st raw e Hc Hr He) as E.
    split; [now rewrite E|].
    apply (printed_during_printing _ _ _ _ _ E).
  - pose proof (inspect_file_answered w strL project_id file_path types
                  threshold st raw findings Hc Hr He) as E.
    split; [now rewrite E|].
    apply (printed_during_printing _ _ _ _ _ E).
Qed.

Lemma finding_lines_redact strL (f : Finding) :
  finding_lines strL (redact f) = finding_lines strL f.
Proof. now rewrite !finding_lines_shown. Qed.

(** X11. Two services whose answers differ at most in the matched texts
    of their findings make [inspect_file] end the same: same lines
    printed, same calls, same outcome. *)
Theorem output_independent_of_quotes (w1 w2 : World) (strL : Likelihood -> string)
  (project_id file_path : string) (types : list string) (threshold : string)
  (st : State) :
  (forall t, DlpServiceClient w1 t = DlpServiceClient w2 t) ->
  (forall t p m, read_file w1 t p m = read_file w2 t p m) ->
  (forall t req, same_but_quotes (inspect_content w1 t req) (inspect_content w2 t req)) ->
  Inspection.inspect_file w1 strL project_id file_path types threshold st
  = Inspection.inspect_file w2 strL project_id file_path types threshold st.
Proof.
  intros Hc Hr Ha.
  destruct (DlpServiceClient w1 (List.length (calls st))) as [e|] eqn:C1.
  { rewrite (inspect_file_without_client w1 _ _ _ _ _ _ _ C1).
    rewrite Hc in C1. now rewrite (inspect_file_without_client w2 _ _ _ _ _ _ _ C1). }
  destruct (read_file w1 (S (List.length (calls st))) file_path mode_rb)
    as [e|raw] eqn:R1.
  { rewrite (inspect_file_unreadable w1 _ _ _ _ _ _ _ C1 R1).
    rewrite Hc in C1. rewrite Hr in R1.
    now rewrite (inspect_file_unreadable w2 _ _ _ _ _ _ _ C1 R1). }
  pose proof (Ha (S (S (List.length (calls st))))
                (Inspection.build_request project_id types threshold raw)) as A.
  unfold same_but_quotes in A.
  destruct (inspect_content w1 _ _) as [e1|f1] eqn:A1;
    destruct (inspect_content w2 _ _) as [e2|f2] eqn:A2; try contradiction.
  - subst e2.
    rewrite (inspect_file_service_error w1 _ _ _ _ _ _ _ _ C1 R1 A1).
    rewrite Hc in C1. rewrite Hr in R1.
    now rewrite (inspect_file_service_error w2 _ _ _ _ _ _ _ _ C1 R1 A2).
  - rewrite (inspect_file_answered w1 _ _ _ _ _ _ _ _ C1 R1 A1).
    rewrite Hc in C1. rewrite Hr in R1.
    rewrite (inspect_file_answered w2 _ _ _ _ _ _ _ _ C1 R1 A2).
    destruct f1 as [|a1 f1], f2 as [|a2 f2]; try discriminate; [reflexivity|].
    assert (A' : redact a1 = redact a2) by (cbn [map] in A; congruence).
    rewrite <- (finding_lines_redact strL a1), <- (finding_lines_redact strL a2), A'.
    replace (no_codeword_info a1) with (no_codeword_info (redact a1)) by reflexivity.
    rewrite A'. reflexivity.
Qed.

(** The same e-mail finding, matched on two different addresses. *)
Lemma output_independent_of_quotes_witness :
  Inspection.inspect_file
    (Samples.answering [Samples.email "test@example.com" []; Samples.phone])
    Samples.show "p" "f.txt" ["EMAIL_ADDRESS"%string] "POSSIBLE" initial
  = Inspection.inspect_file
      (Samples.answering [Samples.email "someone@else.org" []; Samples.phone])
      Samples.show "p" "f.txt" ["EMAIL_ADDRESS"%string] "POSSIBLE" initial.
Proof.
  apply (output_independent_of_quotes
           (Samples.answering [Samples.email "test@example.com" []; Samples.phone])
           (Samples.answering [Samples.email "someone@else.org" []; Samples.phone])).
  - reflexivity.
  - reflexivity.
  - intros t req. reflexivity.
Defined.

(* ================================================================== *)
(** * Further properties of the extension filter *)
(* ================================================================== *)

Lemma append_unfold (x : ascii) (a b : string) :
  String x a +++ b = String x (a +++ b).
Proof. reflexivity. Qed.

Lemma append_nil_r (a : string) : a +++ EmptyString = a.
Proof. induction a as [|x a IH]; [reflexivity|]. now rewrite append_unfold, IH. Qed.

Lemma length_append (a b : string) :
  String.length (a +++ b) = (String.length a + String.length b)%nat.
Proof. induction a as [|x a IH]; [reflexivity|]. rewrite append_unfold. simpl. now rewrite IH. Qed.

Lemma has_append (c : ascii) (a b : string) :
  has c (a +++ b) = has c a || has c b.
Proof.
  induction a as [|x a IH]; [reflexivity|].
  rewrite append_unfold. simpl. now rewrite IH, orb_assoc.
Qed.

Lemma substring_all (s : string) : substring 0 (String.length s) s = s.
Proof. induction s as [|x s IH]; [reflexivity|]. simpl. now rewrite IH. Qed.

Lemma substring_skip (a s : string) (m n : nat) :
  substring (String.length a + m) n (a +++ s) = substring m n s.
Proof. induction a as [|x a IH]; [reflexivity|]. rewrite append_unfold. simpl. exact IH. Qed.

(** ** [rfind] *)

Lemma rfind_from_absent (c : ascii) (s : string) :
  forall i last, has c s = false -> Py.rfind_from c s i last = last.
Proof.
  induction s as [|x s IH]; intros i last H; simpl in *; [reflexivity|].
  apply orb_false_iff in H. destruct H as [Hx Hs]. rewrite Hx. now apply IH.
Qed.

Lemma rfind_from_last (c : ascii) (a b : string) :
  forall i last, has c b = false ->
    Py.rfind_from c (a +++ String c b) i last = i + Z.of_nat (String.length a).
Proof.
  induction a as [|x a IH]; intros i last H.
  - simpl. rewrite Ascii.eqb_refl, rfind_from_absent by exact H. lia.
  - rewrite append_unfold. simpl Py.rfind_from. rewrite IH by exact H.
    simpl String.length. lia.
Qed.

Lemma rfind_from_skip (c : ascii) (a s : string) :
  forall i last, has c s = false ->
    Py.rfind_from c (a +++ s) i last = Py.rfind_from c a i last.
Proof.
  induction a as [|x a IH]; intros i last H.
  - simpl. now apply rfind_from_absent.
  - rewrite append_unfold. simpl. now apply IH.
Qed.

Lemma rfind_from_bound (c : ascii) (s : string) :
  forall i last, last < i ->
    last <= Py.rfind_from c s i last < i + Z.of_nat (String.length s).
Proof.
  induction s as [|x s IH]; intros i last H; simpl Py.rfind_from.
  - simpl. lia.
  - simpl String.length. destruct (Ascii.eqb x c).
    + specialize (IH (i + 1) i ltac:(lia)). lia.
    + specialize (IH (i + 1) last ltac:(lia)). lia.
Qed.

(** The last occurrence splits the string. *)
Lemma rfind_from_split (c : ascii) (s : string) :
  forall i last,
    (has c s = false /\ Py.rfind_from c s i last = last)
    \/ (exists a b, s = a +++ String c b /\ has c b = false
                    /\ Py.rfind_from c s i last = i + Z.of_nat (String.length a)).
Proof.
  induction s as [|x s IH]; intros i last.
  - left. split; reflexivity.
  - simpl Py.rfind_from.
    destruct (IH (i + 1) (if Ascii.eqb x c then i else last)) as [[Hs Hr]|(a & b & E & Hb & Hr)].
    + destruct (Ascii.eqb x c) eqn:Hx.
      * right. exists EmptyString, s. apply Ascii.eqb_eq in Hx. subst x.
        repeat split; auto. rewrite Hr. simpl. lia.
      * left. simpl. rewrite Hx, Hs. auto.
    + right. exists (String x a), b. rewrite append_unfold, E.
      repeat split; auto. rewrite <- E, Hr. simpl String.length. lia.
Qed.

(** Two ways to cut the same string. *)
Lemma append_cut (a' a x y : string) :
  a +++ x = a' +++ y ->
  (String.length a' < String.length a)%nat ->
  exists m, y = m +++ x /\ a = a' +++ m.
Proof.
  revert a. induction a' as [|c a' IH]; intros a E L.
  - exists a. split; [symmetry; exact E | reflexivity].
  - destruct a as [|c0 a]; [simpl in L; lia|].
    rewrite !append_unfold in E. injection E as -> E.
    simpl in L. destruct (IH a E ltac:(lia)) as (m & Hy & Ha).
    exists m. split; [exact Hy|]. now rewrite append_unfold, Ha.
Qed.

Lemma splitext_loop_some (p : string) (d : Z) (n : nat) :
  forall k r, Py.splitext_loop p d n k = Some r ->
              r = (Py.slice_to p d, Py.slice_from p d).
Proof.
  induction n as [|n IH]; intros k r H; simpl in H; [discriminate|].
  destruct (negb _); [now inversion H | eauto].
Qed.

Lemma splitext_shape (p : string) :
  extension_shaped (snd (Py.splitext p)) = true.
Proof.
  unfold Py.splitext.
  destruct (Z.gtb_spec (Py.rfind p ".") (Py.rfind p "/")) as [Hgt|_]; [|reflexivity].
  destruct (Py.splitext_loop _ _ _ _) as [r|] eqn:El; [|reflexivity].
  apply splitext_loop_some in El. subst r. cbn [snd].
  unfold Py.rfind in *.
  destruct (rfind_from_split "." p 0 (-1)) as [[_ Hr]|(a & b & E & Hb & Hr)].
  { pose proof (rfind_from_bound "/" p 0 (-1) ltac:(lia)). lia. }
  rewrite Hr. unfold Py.slice_from.
  replace (Z.to_nat (0 + Z.of_nat (String.length a))) with (String.length a + 0)%nat by lia.
  rewrite E. rewrite substring_skip, length_append.
  replace (String.length a + String.length (String "." b) - (String.length a + 0))%nat
    with (String.length (String "." b)) by lia.
  rewrite substring_all. simpl. rewrite Hb. simpl.
  apply negb_true_iff.
  destruct (rfind_from_split "/" p 0 (-1)) as [[Hs _]|(a' & b' & E' & Hb' & Hr')].
  - rewrite E, has_append in Hs. apply orb_false_iff in Hs. destruct Hs as [_ Hs].
    simpl in Hs. exact Hs.
  - rewrite Hr, Hr' in Hgt.
    assert (L : (String.length a' < String.length a)%nat) by lia.
    rewrite E in E'. destruct (append_cut a' a _ _ E' L) as (m & Hy & _).
    destruct m as [|c m]; [discriminate|].
    rewrite append_unfold in Hy. injection Hy as _ Hy.
    rewrite Hy, has_append in Hb'. apply orb_false_iff in Hb'.
    destruct Hb' as [_ Hb']. simpl in Hb'. exact Hb'.
Qed.

Lemma lower_char_keeps (c x : ascii) :
  c = "."%char \/ c = "/"%char ->
  Ascii.eqb (Py.lower_char x) c = Ascii.eqb x c.
Proof.
  intros [->| ->]; destruct x as [[] [] [] [] [] [] [] []]; reflexivity.
Qed.

Lemma has_lower (c : ascii) (s : string) :
  c = "."%char \/ c = "/"%char -> has c (Py.lower s) = has c s.
Proof.
  intros Hc. induction s as [|x s IH]; [reflexivity|].
  simpl. now rewrite IH, lower_char_keeps.
Qed.

Lemma lower_shape (e : string) :
  extension_shaped (Py.lower e) = extension_shaped e.
Proof.
  destruct e as [|x e]; [reflexivity|].
  simpl. rewrite !has_lower, lower_char_keeps by auto. reflexivity.
Qed.

(** X13. The extension tested against the allow-list is empty, or a
    period followed by characters that are neither periods nor slashes.
    So a non-empty allow-list all of whose entries have another shape
    ("txt", ".tar.gz", "*.log") excludes every file. *)
Theorem misshapen_entries_never_match (cfg : Hybrid.Config) (file_path : string) :
  extension_shaped (Py.lower (snd (Py.splitext file_path))) = true
  /\ (Hybrid.include_extensions cfg <> [] ->
      Forall (fun entry => extension_shaped entry = false)
             (Hybrid.include_extensions cfg) ->
      Hybrid.extension_excluded cfg file_path = true).
Proof.
  assert (S : extension_shaped (Py.lower (snd (Py.splitext file_path))) = true)
    by (rewrite lower_shape; apply splitext_shape).
  split; [exact S|].
  intros Hne Hbad. unfold Hybrid.extension_excluded.
  destruct (Hybrid.include_extensions cfg) as [|x l] eqn:El; [congruence|].
  cbn [negb andb]. apply negb_true_iff, not_true_iff_false.
  rewrite str_in_In. intros Hin.
  rewrite Forall_forall in Hbad. specialize (Hbad _ Hin). congruence.
Qed.

(** Three entries that no extension can equal. *)
Lemma misshapen_entries_never_match_witness :
  Hybrid.extension_excluded (Samples.cfg_with ["txt"; ".tar.gz"; "*.log"]%string)
    "/data/a.txt" = true.
Proof.
  apply (proj2 (misshapen_entries_never_match
                  (Samples.cfg_with ["txt"; ".tar.gz"; "*.log"]%string)
                  "/data/a.txt")).
  - discriminate.
  - repeat constructor.
Defined.

(** ** The extension is that of the file name *)

Lemma slice_skip (pre s : string) (k j : Z) :
  0 <= k ->
  Py.slice (pre +++ s) (Z.of_nat (String.length pre) + k)
           (Z.of_nat (String.length pre) + j)
  = Py.slice s k j.
Proof.
  intros Hk. unfold Py.slice.
  replace (Z.to_nat (Z.of_nat (String.length pre) + k))
    with (String.length pre + Z.to_nat k)%nat by lia.
  rewrite substring_skip. f_equal. lia.
Qed.

Lemma splitext_loop_skip (pre s : string) (d : Z) (n : nat) :
  forall k, 0 <= k ->
    Py.splitext_loop (pre +++ s) (Z.of_nat (String.length pre) + d) n
      (Z.of_nat (String.length pre) + k)
    = match Py.splitext_loop s d n k with
      | Some _ => Some (Py.slice_to (pre +++ s) (Z.of_nat (String.length pre) + d),
                        Py.slice_from (pre +++ s) (Z.of_nat (String.length pre) + d))
      | None => None
      end.
Proof.
  induction n as [|n IH]; intros k Hk; simpl; [reflexivity|].
  replace (Z.of_nat (String.length pre) + k + 1)
    with (Z.of_nat (String.length pre) + (k + 1)) by lia.
  rewrite slice_skip by exact Hk.
  destruct (negb _); [reflexivity|]. apply IH. lia.
Qed.

Lemma slice_from_skip (pre s : string) (d : Z) :
  0 <= d ->
  Py.slice_from (pre +++ s) (Z.of_nat (String.length pre) + d) = Py.slice_from s d.
Proof.
  intros Hd. unfold Py.slice_from.
  replace (Z.to_nat (Z.of_nat (String.length pre) + d))
    with (String.length pre + Z.to_nat d)%nat by lia.
  rewrite substring_skip, length_append. f_equal. lia.
Qed.

(** The extension of [pre/name] is the extension of [name]. *)
Lemma splitext_under (pre name : string) :
  has "/" name = false ->
  snd (Py.splitext (pre +++ String "/" name)) = snd (Py.splitext name).
Proof.
  intros Hn.
  assert (E : pre +++ String "/" name = (pre +++ "/") +++ name).
  { rewrite append_assoc. reflexivity. }
  assert (Lp : Z.of_nat (String.length (pre +++ "/"))
               = Z.of_nat (String.length pre) + 1).
  { rewrite length_append. simpl. lia. }
  unfold Py.splitext, Py.rfind.
  rewrite (rfind_from_last "/" pre name 0 (-1) Hn).
  rewrite (rfind_from_absent "/" name 0 (-1) Hn).
  destruct (rfind_from_split "." name 0 (-1)) as [[Hd Hr]|(a & b & En & Hb & Hr)].
  - (* no period in the name *)
    rewrite Hr.
    assert (Hs : has "." (String "/" name) = false) by (simpl; exact Hd).
    rewrite (rfind_from_skip "." pre _ 0 (-1) Hs).
    pose proof (rfind_from_bound "." pre 0 (-1) ltac:(lia)) as B.
    destruct (Z.gtb_spec (Py.rfind_from "." pre 0 (-1))
                (0 + Z.of_nat (String.length pre))); [lia|].
    reflexivity.
  - rewrite Hr.
    assert (Ep : pre +++ String "/" name
                 = (pre +++ String "/" a) +++ String "." b).
    { rewrite En, append_assoc. reflexivity. }
    assert (Rp : Py.rfind_from "." (pre +++ String "/" name) 0 (-1)
                 = Z.of_nat (String.length (pre +++ "/"))
                   + (0 + Z.of_nat (String.length a))).
    { rewrite Ep, (rfind_from_last "." _ b 0 (-1) Hb), Lp, length_append.
      simpl String.length. lia. }
    rewrite Rp.
    destruct (Z.gtb_spec (Z.of_nat (String.length (pre +++ "/"))
                          + (0 + Z.of_nat (String.length a)))
                (0 + Z.of_nat (String.length pre))); [|lia].
    destruct (Z.gtb_spec (0 + Z.of_nat (String.length a)) (-1)); [|lia].
    replace (Z.to_nat (Z.of_nat (String.length (pre +++ "/"))
                       + (0 + Z.of_nat (String.length a))
                       - (0 + Z.of_nat (String.length pre) + 1)))
      with (Z.to_nat (0 + Z.of_nat (String.length a) - (-1 + 1))) by lia.
    replace (0 + Z.of_nat (String.length pre) + 1)
      with (Z.of_nat (String.length (pre +++ "/")) + 0) by lia.
    replace (-1 + 1) with 0 by lia.
    rewrite E. rewrite splitext_loop_skip by lia.
    destruct (Py.splitext_loop name _ _ 0) as [r|] eqn:El; [|reflexivity].
    apply splitext_loop_some in El. subst r. cbn [snd].
    apply slice_from_skip. lia.
Qed.

Lemma endswith_sep_split (a : string) :
  Py.endswith_sep a = true -> exists a0, a = a0 +++ "/".
Proof.
  induction a as [|c a IH]; [discriminate|].
  destruct a as [|c' a'].
  - simpl. intros H. apply Ascii.eqb_eq in H. subst c. now exists EmptyString.
  - intros H. change (Py.endswith_sep (String c' a') = true) in H.
    destruct (IH H) as (a0 & E). exists (String c a0). now rewrite append_unfold, <- E.
Qed.

Lemma splitext_join (root file : string) :
  has "/" file = false ->
  snd (Py.splitext (Py.join root file)) = snd (Py.splitext file).
Proof.
  intros Hf. unfold Py.join.
  assert (Hs : Py.startswith_sep file = false).
  { destruct file as [|c file]; [reflexivity|]. simpl in Hf.
    apply orb_false_iff in Hf. destruct Hf as [Hc _].
    simpl. destruct c as [[] [] [] [] [] [] [] []]; try reflexivity; discriminate. }
  rewrite Hs.
  destruct (String.eqb_spec root EmptyString) as [->|Hr]; [reflexivity|].
  cbn [orb].
  destruct (Py.endswith_sep root) eqn:He.
  - destruct (endswith_sep_split root He) as (a0 & ->).
    rewrite append_assoc. apply (splitext_under a0 file Hf).
  - apply (splitext_under root file Hf).
Qed.

(** X14. The extension of a walked file is that of its name: periods
    in the directories above it play no part, and the extension filter
    decides on the file name alone. *)
Theorem extension_is_of_the_file_name (cfg : Hybrid.Config) (root file : string) :
  has "/" file = false ->
  snd (Py.splitext (Py.join root file)) = snd (Py.splitext file)
  /\ Hybrid.extension_excluded cfg (Py.join root file)
     = Hybrid.extension_excluded cfg file.
Proof.
  intros Hf. pose proof (splitext_join root file Hf) as S.
  split; [exact S|]. unfold Hybrid.extension_excluded. now rewrite S.
Qed.

(** [README] under directories whose names have periods. *)
Lemma extension_is_of_the_file_name_witness :
  snd (Py.splitext (Py.join "/data/v1.2/archive.d" "README"))
  = snd (Py.splitext "README")
  /\ Hybrid.extension_excluded (Samples.cfg_with [".2"; ".d"; ".txt"]%string)
       (Py.join "/data/v1.2/archive.d" "README")
     = Hybrid.extension_excluded (Samples.cfg_with [".2"; ".d"; ".txt"]%string)
         "README".
Proof.
  apply (extension_is_of_the_file_name
           (Samples.cfg_with [".2"; ".d"; ".txt"]%string)
           "/data/v1.2/archive.d" "README").
  reflexivity.
Defined.

(** ** Names that begin with periods *)

Lemma str_mul_S_r (n : nat) : Py.str_mul "." (S n) = Py.str_mul "." n +++ ".".
Proof.
  induction n as [|n IH]; [reflexivity|].
  change (Py.str_mul "." (S (S n))) with (String "." (Py.str_mul "." (S n))).
  rewrite IH at 1. reflexivity.
Qed.

Lemma length_str_mul (n : nat) : String.length (Py.str_mul "." n) = n.
Proof.
  induction n as [|n IH]; [reflexivity|].
  change (Py.str_mul "." (S n)) with (String "." (Py.str_mul "." n)).
  simpl. now rewrite IH.
Qed.

Lemma has_str_mul (c : ascii) (n : nat) :
  c <> "."%char -> has c (Py.str_mul "." n) = false.
Proof.
  intros Hc. induction n as [|n IH]; [reflexivity|].
  change (Py.str_mul "." (S n)) with (String "." (Py.str_mul "." n)).
  cbn [has]. rewrite IH, orb_false_r. apply Ascii.eqb_neq. congruence.
Qed.

Lemma substring_dots (k : nat) (rest : string) :
  forall j, (j < k)%nat ->
    substring j 1 (Py.str_mul "." k +++ rest) = "."%string.
Proof.
  induction k as [|k IH]; intros j Hj; [lia|].
  change (Py.str_mul "." (S k)) with (String "." (Py.str_mul "." k)).
  rewrite append_unfold. destruct j as [|j].
  - simpl. now destruct (Py.str_mul "." k +++ rest).
  - simpl. apply IH. lia.
Qed.

Lemma splitext_loop_dots (k : nat) (rest : string) (d : Z) (n : nat) :
  forall j, (j + n <= k)%nat ->
    Py.splitext_loop (Py.str_mul "." k +++ rest) d n (Z.of_nat j) = None.
Proof.
  induction n as [|n IH]; intros j Hj; simpl; [reflexivity|].
  unfold Py.slice.
  replace (Z.to_nat (Z.of_nat j)) with j by lia.
  replace (Z.to_nat (Z.of_nat j + 1 - Z.of_nat j)) with 1%nat by lia.
  rewrite substring_dots by lia. simpl.
  replace (Z.of_nat j + 1) with (Z.of_nat (S j)) by lia.
  apply IH. lia.
Qed.

Lemma splitext_hidden (k : nat) (stem : string) :
  has "." stem = false ->
  has "/" stem = false ->
  snd (Py.splitext (Py.str_mul "." (S k) +++ stem)) = EmptyString.
Proof.
  intros Hd Hs.
  assert (E : Py.str_mul "." (S k) +++ stem
              = Py.str_mul "." k +++ String "." stem).
  { rewrite str_mul_S_r, append_assoc. reflexivity. }
  unfold Py.splitext, Py.rfind.
  rewrite (rfind_from_absent "/" _ 0 (-1))
    by (rewrite has_append, has_str_mul, Hs by discriminate; reflexivity).
  assert (R : Py.rfind_from "." (Py.str_mul "." (S k) +++ stem) 0 (-1)
              = 0 + Z.of_nat k).
  { rewrite E, (rfind_from_last "." _ stem 0 (-1) Hd), length_str_mul.
    reflexivity. }
  rewrite R.
  destruct (Z.gtb_spec (0 + Z.of_nat k) (-1)); [|lia].
  replace (-1 + 1) with (Z.of_nat 0) by lia.
  rewrite splitext_loop_dots; [reflexivity|]. lia.
Qed.

(** X15. A file whose name is periods followed by a stem without a
    period (".env", ".bashrc") has the empty extension: a non-empty
    allow-list that does not hold the empty string excludes it, even when
    it holds the name itself. *)
Theorem hidden_files_have_no_extension (cfg : Hybrid.Config) (root stem : string)
  (k : nat) :
  has "." stem = false ->
  has "/" stem = false ->
  let file := Py.str_mul "." (S k) +++ stem in
  snd (Py.splitext (Py.join root file)) = EmptyString
  /\ (Hybrid.include_extensions cfg <> [] ->
      ~ In EmptyString (Hybrid.include_extensions cfg) ->
      Hybrid.extension_excluded cfg (Py.join root file) = true).
Proof.
  intros Hd Hs file.
  assert (S : snd (Py.splitext (Py.join root file)) = EmptyString).
  { rewrite splitext_join.
    - now apply splitext_hidden.
    - unfold file. rewrite has_append, has_str_mul, Hs by discriminate. reflexivity. }
  split; [exact S|].
  intros Hne Hin. unfold Hybrid.extension_excluded. rewrite S.
  destruct (Hybrid.include_extensions cfg) as [|x l] eqn:El; [congruence|].
  cbn [negb andb]. apply negb_true_iff, not_true_iff_false.
  rewrite str_in_In. exact Hin.
Qed.

(** [.env] under [/srv/app], with [.env] in the allow-list. *)
Lemma hidden_files_have_no_extension_witness :
  snd (Py.splitext (Py.join "/srv/app" (Py.str_mul "." 1 +++ "env"))) = EmptyString
  /\ Hybrid.extension_excluded (Samples.cfg_with [".env"; ".txt"]%string)
       (Py.join "/srv/app" (Py.str_mul "." 1 +++ "env")) = true.
Proof.
  destruct (hidden_files_have_no_extension
              (Samples.cfg_with [".env"; ".txt"]%string) "/srv/app" "env" 0
              eq_refl eq_refl) as [A B].
  split; [exact A|]. apply B.
  - discriminate.
  - simpl. intuition discriminate.
Defined.
